(** * DocumentExtractor API client: request dispatch and error classification

    A shallow embedding of [documentextractor_client/client.py].  The client
    object and the header dictionaries it shares live in an object heap, the
    requests handed to the HTTP library are recorded in a trace, and every
    method is a computation in a state-and-exception monad over both. *)

From Stdlib Require Import ZArith Ascii String.
From stdpp Require Import gmap strings list fin_maps pretty.

Local Open Scope string_scope.
Local Open Scope Z_scope.
Set Warnings "-register-all".

(** ** Python values *)

(** A binary64 number as [json.loads] produces it. *)
Inductive float64 :=
| FFinite (negative : bool) (mantissa : N) (exponent : Z)
| FInfinity (negative : bool)
| FNaN.

(** Objects that [Response.json()] can return; a [dict] keeps its items in
    insertion order and its keys are looked up from the front. *)
Inductive value :=
| VNone
| VBool (b : bool)
| VInt (n : Z)
| VFloat (x : float64)
| VStr (s : string)
| VList (items : list value)
| VDict (items : list (string * value)).

(** Python truth value testing, as used by [if x] and [x and y]. *)
Definition truthy (v : value) : bool :=
  match v with
  | VNone => false
  | VBool b => b
  | VInt n => negb (n =? 0)
  | VFloat (FFinite _ m _) => negb (m =? 0)%N
  | VFloat _ => true
  | VStr s => negb (String.length s =? 0)%nat
  | VList l => match l with [] => false | _ => true end
  | VDict d => match d with [] => false | _ => true end
  end.

Definition str_truthy (s : string) : bool := truthy (VStr s).

Fixpoint dict_get (key : string) (d : list (string * value)) : value :=
  match d with
  | [] => VNone
  | (k, v) :: rest => if String.eqb k key then v else dict_get key rest
  end.

Fixpoint dict_has (key : string) (d : list (string * value)) : bool :=
  match d with
  | [] => false
  | (k, _) :: rest => String.eqb k key || dict_has key rest
  end.

(** [s] occurs in [t] as a contiguous substring. *)
Definition contains (s t : string) : Prop :=
  ∃ before after, t = before +:+ s +:+ after.

(** ** The HTTP library as the client sees it *)

Inductive JsonOutcome :=
| JsonOk (v : value)
| JsonDecodeError (msg : string).

(** A [requests.Response]: the attributes and the [json()] outcome that the
    client reads. *)
Record Response := {
  status_code : Z;
  text : string;
  content : list Byte.byte;
  json : JsonOutcome
}.

Record FilePart := {
  part_filename : string;
  part_content : list Byte.byte;
  part_mime : string
}.

(** What [requests.request(method, url, headers=..., **kwargs)] is given. *)
Record Request := {
  req_method : string;
  req_url : string;
  req_headers : gmap string string;
  req_params : option (list (string * string));
  req_json : option value;
  req_files : option (list (string * FilePart))
}.

(** How the call ends: with a response object, with an [HTTPError] raised by
    the library itself (its [response] attribute may be [None]), or with
    another [RequestException] whose [str()] is [msg]. *)
Inductive Outcome :=
| Responded (response : Response)
| HTTPErrorRaised (response : option Response)
| RequestExceptionRaised (msg : string).

(** [Response.raise_for_status()] raises [HTTPError(response=self)] exactly
    for the 4xx and 5xx status codes. *)
Definition raise_for_status (r : Response) : bool :=
  (400 <=? status_code r) && (status_code r <? 600).

(** ** Exceptions *)

(** Modelled from the spec: the exception classes of
    [documentextractor_client/exceptions.py], each with the keyword arguments
    that [client.py] passes to it ([status_code] and [details] default to
    [None]); the built-in and pydantic exceptions that can leave a method are
    listed after them. *)
Inductive exn :=
| DocumentExtractorAPIError (message : string) (status : option Z) (details : value)
| AuthenticationError (details : value)
| ForbiddenError (details : value)
| ClientRequestError (message : string) (status : Z) (details : value)
| APIServerError (message : string) (status : Z) (details : value)
| ValueError (message : string)
| TypeError (message : string)
| AttributeError (message : string)
| ValidationError (message : string)
| OSError (message : string).

(** [isinstance(e, DocumentExtractorAPIError)]: the failures of the HTTP
    exchange. *)
Definition is_api_error (e : exn) : bool :=
  match e with
  | DocumentExtractorAPIError _ _ _ | AuthenticationError _ | ForbiddenError _
  | ClientRequestError _ _ _ | APIServerError _ _ _ => true
  | _ => false
  end.

(** [isinstance(e, ValueError)]; pydantic's [ValidationError] derives from
    [ValueError]. *)
Definition is_value_error (e : exn) : bool :=
  match e with
  | ValueError _ | ValidationError _ => true
  | _ => false
  end.

Definition exn_message (e : exn) : option string :=
  match e with
  | DocumentExtractorAPIError m _ _ | ClientRequestError m _ _
  | APIServerError m _ _ | ValueError m | TypeError m | AttributeError m
  | ValidationError m | OSError m => Some m
  | AuthenticationError _ | ForbiddenError _ => None
  end.

Definition exn_details (e : exn) : option value :=
  match e with
  | DocumentExtractorAPIError _ _ d | AuthenticationError d | ForbiddenError d
  | ClientRequestError _ _ d | APIServerError _ _ d => Some d
  | _ => None
  end.

(** ** The [except requests.exceptions.HTTPError] block of [_request] *)

(** Rendering of a value inside an f-string.  A [str] is inserted as it is;
    for every other object Python's built-in [str()] decides, which is passed
    in as [str_other]. *)
Definition py_format (str_other : value → string) (v : value) : string :=
  match v with
  | VStr s => s
  | _ => str_other v
  end.

(** [error_details]: the decoded body, the body text when decoding raises
    [json.JSONDecodeError], [None] without a response. *)
Definition error_details (response : option Response) : value :=
  match response with
  | None => VNone
  | Some r =>
      match json r with
      | JsonOk v => v
      | JsonDecodeError _ => VStr (text r)
      end
  end.

(** The message of a [ClientRequestError]. *)
Definition client_error_message (str_other : value → string)
    (status : Z) (details : value) : string :=
  let msg := "Client error " +:+ pretty status in
  match details with
  | VDict d =>
      if truthy details && truthy (dict_get "detail" d)
      then msg +:+ ": " +:+ py_format str_other (dict_get "detail" d)
      else msg
  | VStr s =>
      if (String.length s <? 100)%nat then msg +:+ ": " +:+ s else msg
  | _ => msg
  end.

(** The exception raised for an [HTTPError] whose [response] attribute is
    [response], for a request to [url]. *)
Definition classify_http_error (str_other : value → string) (url : string)
    (response : option Response) : exn :=
  let details := error_details response in
  match response with
  | Some r =>
      let code := status_code r in
      if code =? 401 then AuthenticationError details
      else if code =? 403 then ForbiddenError details
      else if negb (code =? 0) && (400 <=? code) && (code <? 500) then
        ClientRequestError (client_error_message str_other code details) code details
      else if negb (code =? 0) && (500 <=? code) && (code <? 600) then
        APIServerError ("Server error " +:+ pretty code) code details
      else
        DocumentExtractorAPIError
          ("HTTP Error " +:+ (if code =? 0 then "Unknown" else pretty code)
             +:+ " for " +:+ url)
          (Some code) details
  | None =>
      DocumentExtractorAPIError ("HTTP Error Unknown for " +:+ url) None details
  end.

(** ** External collaborators *)

(** The pydantic models of [documentextractor_commons.models.transfer]. *)
Inductive ModelClass :=
| FileResponse | WorkflowResponse | RunResponse | RunResult
| WorkflowCreate | WorkflowUpdate | RunCreate.

Record Model := {
  model_class : ModelClass;
  model_fields : list (string * value)
}.

(** How calling a model class with keyword arguments ends. *)
Inductive InitOutcome :=
| Built (m : Model)
| InitTypeError (msg : string)
| InitValidationError (msg : string).

(** The members of the enum [RunResultResponseFormat]: the three that
    [client.py] names, and any other member the enum may have. *)
Inductive RunResultResponseFormat :=
| JSON | CSV | EXCEL
| OtherFormat (name : string).

Global Instance RunResultResponseFormat_eq_dec : EqDecision RunResultResponseFormat.
Proof. solve_decision. Defined.

(** Everything outside this repository that a method consults: the remote
    service behind [requests.request] (its answer may depend on the requests
    sent before), Python's [str()] on objects that are not strings,
    [mimetypes.guess_type], [open(path, 'rb')] (the bytes, or the message of
    the [OSError]), and the classes of the commons package. *)
Record Environment := {
  server : list Request → Request → Outcome;
  str_other : value → string;
  guess_type : string → option string;
  read_file : string → list Byte.byte + string;
  model_init : ModelClass → list (string * value) → InitOutcome;
  unpack_error : ModelClass → value → string;
  model_dump : Model → bool → bool → value;
  enum_value : RunResultResponseFormat → string;
  enum_str : RunResultResponseFormat → string
}.

(** ** Objects, state and the method monad *)

Abbreviation loc := positive (only parsing).

(** The attributes of a [DocumentExtractorAPIClient]; [headers] refers to a
    dictionary object. *)
Record DocumentExtractorAPIClient := {
  root_url : string;
  api_key : string;
  headers : loc
}.

Inductive object :=
| DictObj (d : gmap string string)
| ClientObj (c : DocumentExtractorAPIClient).

Record State := {
  heap : gmap loc object;
  trace : list Request
}.

Inductive result (A : Type) :=
| Returned (a : A)
| Raised (e : exn).
Global Arguments Returned {A} a.
Global Arguments Raised {A} e.

Definition M (A : Type) : Type := State → result A * State.

Global Instance M_ret : MRet M := λ A a σ, (Returned a, σ).

Global Instance M_bind : MBind M := λ A B f m σ,
  match m σ with
  | (Returned a, σ') => f a σ'
  | (Raised e, σ') => (Raised e, σ')
  end.

Definition raise {A} (e : exn) : M A := λ σ, (Raised e, σ).

(** [try: m except: h], where [h] tells which exceptions it handles. *)
Definition try_except {A} (m : M A) (h : exn → option (M A)) : M A := λ σ,
  match m σ with
  | (Returned a, σ') => (Returned a, σ')
  | (Raised e, σ') =>
      match h e with
      | Some k => k σ'
      | None => (Raised e, σ')
      end
  end.

Definition alloc (o : object) : M loc := λ σ,
  let l := fresh (dom (heap σ)) in
  (Returned l, {| heap := <[l := o]> (heap σ); trace := trace σ |}).

Definition store (l : loc) (o : object) : M unit := λ σ,
  (Returned (), {| heap := <[l := o]> (heap σ); trace := trace σ |}).

Definition load_dict (l : loc) : M (gmap string string) := λ σ,
  match heap σ !! l with
  | Some (DictObj d) => (Returned d, σ)
  | _ => (Raised (AttributeError "not a dict"), σ)
  end.

Definition load_client (l : loc) : M DocumentExtractorAPIClient := λ σ,
  match heap σ !! l with
  | Some (ClientObj c) => (Returned c, σ)
  | _ => (Raised (AttributeError "not a DocumentExtractorAPIClient"), σ)
  end.

(** [d.copy()] *)
Definition dict_copy (l : loc) : M loc :=
  d ← load_dict l; alloc (DictObj d).

(** [d.update(other)]: the items of [other] win. *)
Definition dict_update (l other : loc) : M unit :=
  d ← load_dict l; o ← load_dict other; store l (DictObj (o ∪ d)).

(** [d[key] = v] *)
Definition dict_setitem (l : loc) (key v : string) : M unit :=
  d ← load_dict l; store l (DictObj (<[key := v]> d)).

(** [requests.request]: one round trip, recorded in the trace. *)
Definition requests_request (env : Environment) (req : Request) : M Outcome := λ σ,
  (Returned (server env (trace σ) req),
   {| heap := heap σ; trace := trace σ ++ [req] |}).

(** ** The client *)

(** [s.rstrip('/')] *)
Fixpoint rstrip_slash (s : string) : string :=
  match s with
  | EmptyString => EmptyString
  | String c rest =>
      match rstrip_slash rest with
      | EmptyString => if Ascii.eqb c "/"%char then EmptyString else String c EmptyString
      | rest' => String c rest'
      end
  end.

(** [s.split('/')[-1]] *)
Fixpoint last_segment (s : string) : string :=
  match s with
  | EmptyString => EmptyString
  | String c rest =>
      if existsb (Ascii.eqb "/"%char) (list_ascii_of_string rest) then last_segment rest
      else if Ascii.eqb c "/"%char then rest
      else s
  end.

(** [DocumentExtractorAPIClient(root_url, api_key)]: the constructor builds
    the base header dictionary and returns the new client object. *)
Definition __init__ (root_url api_key : string) : M loc :=
  h ← alloc (DictObj (<["Authorization" := "Bearer " +:+ api_key]>
                       (<["Accept" := "application/json" (* default, can be overridden *)]> ∅)));
  alloc (ClientObj {| root_url := rstrip_slash root_url;
                      api_key := api_key;
                      headers := h |}).

(** The keyword arguments that the methods pass through [_request] to
    [requests.request]; [headers] is a reference to a dictionary. *)
Record Kwargs := {
  kw_headers : option loc;
  kw_params : option (list (string * string));
  kw_json : option value;
  kw_files : option (list (string * FilePart))
}.

Definition no_kwargs : Kwargs :=
  {| kw_headers := None; kw_params := None; kw_json := None; kw_files := None |}.

(** What [_request] returns: with [parse_json] the decoded body ([None] for
    204), without it the response object itself. *)
Definition Dispatched (parse_json : bool) : Type :=
  if parse_json then value else Response.

Definition _request (env : Environment) (self : loc) (method path : string)
    (parse_json : bool) (kwargs : Kwargs) : M (Dispatched parse_json) :=
  c ← load_client self;
  let url := root_url c +:+ path in
  request_headers ← dict_copy (headers c);
  match kw_headers kwargs with
  | Some h => dict_update request_headers h
  | None => mret ()
  end;;
  sent_headers ← load_dict request_headers;
  outcome ← requests_request env
    {| req_method := method; req_url := url; req_headers := sent_headers;
       req_params := kw_params kwargs; req_json := kw_json kwargs;
       req_files := kw_files kwargs |};
  match outcome with
  | Responded response =>
      if raise_for_status response then
        raise (classify_http_error (str_other env) url (Some response))
      else
        match parse_json return M (Dispatched parse_json) with
        | false => mret response
        | true =>
            if status_code response =? 204 then mret VNone
            else
              match json response with
              | JsonOk v => mret v
              | JsonDecodeError msg =>
                  (* requests' JSONDecodeError is a RequestException *)
                  raise (DocumentExtractorAPIError
                           ("Request failed for " +:+ url +:+ ": " +:+ msg)
                           None VNone)
              end
        end
  | HTTPErrorRaised response =>
      raise (classify_http_error (str_other env) url response)
  | RequestExceptionRaised msg =>
      raise (DocumentExtractorAPIError
               ("Request failed for " +:+ url +:+ ": " +:+ msg) None VNone)
  end.

(** *** Building typed objects from decoded bodies *)

Definition type_name (v : value) : string :=
  match v with
  | VNone => "NoneType" | VBool _ => "bool" | VInt _ => "int"
  | VFloat _ => "float" | VStr _ => "str" | VList _ => "list"
  | VDict _ => "dict"
  end.

(** The items a [for] clause draws from [v]. *)
Definition iterate (v : value) : M (list value) :=
  match v with
  | VList l => mret l
  | VDict d => mret ((λ kv, VStr kv.1) <$> d)
  | VStr s => mret ((λ c, VStr (String c EmptyString)) <$> list_ascii_of_string s)
  | _ => raise (TypeError ("'" +:+ type_name v +:+ "' object is not iterable"))
  end.

(** Calling the class [cls] with the items of [v] as keyword arguments; an
    object that is not a mapping is a [TypeError] of the call itself. *)
Definition construct (env : Environment) (cls : ModelClass) (v : value) : M Model :=
  match v with
  | VDict kw =>
      match model_init env cls kw with
      | Built m => mret m
      | InitTypeError msg => raise (TypeError msg)
      | InitValidationError msg => raise (ValidationError msg)
      end
  | _ => raise (TypeError (unpack_error env cls v))
  end.

(** A UUID enters a path through its [str()] form. *)
Abbreviation UUID := string (only parsing).

Definition json_kwargs (body : value) : Kwargs :=
  {| kw_headers := None; kw_params := None; kw_json := Some body; kw_files := None |}.

Definition files_kwargs (name : string) (data : list Byte.byte) (mime : string) : Kwargs :=
  {| kw_headers := None; kw_params := None; kw_json := None;
     kw_files := Some [("file", {| part_filename := name; part_content := data;
                                   part_mime := mime |})] |}.

(** *** Files endpoints *)

Definition list_files (env : Environment) (self : loc) : M (list Model) :=
  response_data ← _request env self "GET" "/v1/files/" true no_kwargs;
  items ← iterate response_data;
  mapM (construct env FileResponse) items.

Definition upload_file (env : Environment) (self : loc) (file_path : string)
    (file_content : option (list Byte.byte)) (filename : option string) : M Model :=
  match file_content, filename with
  | Some _, None =>
      raise (ValueError "filename must be provided if file_content is specified.")
  | _, _ =>
      let _filename :=
        match filename with
        | Some f => if str_truthy f then f else last_segment file_path
        | None => last_segment file_path
        end in
      let mime_type :=
        default "application/octet-stream"
          (guess_type env (match file_content with
                           | None => file_path
                           | Some _ => _filename
                           end)) in
      response_data ←
        match file_content with
        | Some data =>
            _request env self "POST" "/v1/files/" true
              (files_kwargs _filename data mime_type)
        | None =>
            match read_file env file_path with
            | inl data =>
                _request env self "POST" "/v1/files/" true
                  (files_kwargs _filename data mime_type)
            | inr msg => raise (OSError msg)
            end
        end;
      construct env FileResponse response_data
  end.

Definition get_file (env : Environment) (self : loc) (file_uuid : UUID) : M Model :=
  response_data ← _request env self "GET" ("/v1/files/" +:+ file_uuid) true no_kwargs;
  construct env FileResponse response_data.

Definition delete_file (env : Environment) (self : loc) (file_uuid : UUID) : M unit :=
  _request env self "DELETE" ("/v1/files/" +:+ file_uuid) false no_kwargs;;
  mret ().

(** *** Workflows endpoints *)

Definition list_workflows (env : Environment) (self : loc) : M (list Model) :=
  response_data ← _request env self "GET" "/v1/workflows/" true no_kwargs;
  items ← iterate response_data;
  mapM (construct env WorkflowResponse) items.

Definition create_workflow (env : Environment) (self : loc) (workflow_data : Model)
    : M Model :=
  response_data ← _request env self "POST" "/v1/workflows/" true
                    (json_kwargs (model_dump env workflow_data true false));
  construct env WorkflowResponse response_data.

Definition get_workflow (env : Environment) (self : loc) (workflow_uuid : UUID)
    : M Model :=
  response_data ← _request env self "GET" ("/v1/workflows/" +:+ workflow_uuid)
                    true no_kwargs;
  construct env WorkflowResponse response_data.

Definition override_workflow (env : Environment) (self : loc) (workflow_uuid : UUID)
    (workflow_data : Model) : M Model :=
  response_data ← _request env self "PUT" ("/v1/workflows/" +:+ workflow_uuid) true
                    (json_kwargs (model_dump env workflow_data true false));
  construct env WorkflowResponse response_data.

Definition update_workflow (env : Environment) (self : loc) (workflow_uuid : UUID)
    (workflow_data : Model) : M Model :=
  response_data ← _request env self "PATCH" ("/v1/workflows/" +:+ workflow_uuid) true
                    (json_kwargs (model_dump env workflow_data true true));
  construct env WorkflowResponse response_data.

Definition delete_workflow (env : Environment) (self : loc) (workflow_uuid : UUID)
    : M unit :=
  _request env self "DELETE" ("/v1/workflows/" +:+ workflow_uuid) false no_kwargs;;
  mret ().

(** *** Runs endpoints *)

Definition list_workflow_runs (env : Environment) (self : loc) (workflow_uuid : UUID)
    : M (list Model) :=
  response_data ← _request env self "GET"
                    ("/v1/workflows/" +:+ workflow_uuid +:+ "/runs/") true no_kwargs;
  items ← iterate response_data;
  mapM (construct env RunResponse) items.

Definition create_workflow_run (env : Environment) (self : loc) (workflow_uuid : UUID)
    (run_data : Model) : M Model :=
  response_data ← _request env self "POST"
                    ("/v1/workflows/" +:+ workflow_uuid +:+ "/runs/") true
                    (json_kwargs (model_dump env run_data false false));
  construct env RunResponse response_data.

Definition get_workflow_run_details (env : Environment) (self : loc)
    (workflow_uuid : UUID) (run_num : Z) : M Model :=
  response_data ← _request env self "GET"
                    ("/v1/workflows/" +:+ workflow_uuid +:+ "/runs/" +:+ pretty run_num)
                    true no_kwargs;
  construct env RunResponse response_data.

(** The three shapes [get_workflow_run_results] returns. *)
Inductive RunResults :=
| ResultModel (m : Model)
| ResultText (s : string)
| ResultBytes (b : list Byte.byte).

Definition results_path (workflow_uuid : UUID) (run_num : Z) : string :=
  "/v1/workflows/" +:+ workflow_uuid +:+ "/runs/" +:+ pretty run_num +:+ "/results".

Definition results_params (format_option : option string) : list (string * string) :=
  match format_option with
  | Some o => if str_truthy o then [("format_option", o)] else []
  | None => []
  end.

Definition get_workflow_run_results (env : Environment) (self : loc)
    (workflow_uuid : UUID) (run_num : Z) (accept_format : RunResultResponseFormat)
    (format_option : option string) : M RunResults :=
  let path := results_path workflow_uuid run_num in
  let params := results_params format_option in
  c ← load_client self;
  custom_headers ← dict_copy (headers c);
  dict_setitem custom_headers "Accept" (enum_value env accept_format);;
  response ← _request env self "GET" path false
               {| kw_headers := Some custom_headers; kw_params := Some params;
                  kw_json := None; kw_files := None |};
  if decide (accept_format = JSON) then
    match json response with
    | JsonOk json_data =>
        try_except
          (m ← construct env RunResult json_data; mret (ResultModel m))
          (λ e, match e with
                | TypeError msg =>
                    Some (raise (ValueError
                            ("Mismatched JSON structure for RunResult: "
                               +:+ py_format (str_other env) json_data
                               +:+ ". Error: " +:+ msg)))
                | _ => None
                end)
    | JsonDecodeError _ =>
        raise (ValueError "Failed to decode JSON response for RunResult.")
    end
  else if decide (accept_format = CSV) then mret (ResultText (text response))
  else if decide (accept_format = EXCEL) then mret (ResultBytes (content response))
  else raise (ValueError ("Unsupported accept_format: " +:+ enum_str env accept_format)).

(** *** The public operations as one type *)

Inductive Call :=
| ListFiles
| UploadFile (file_path : string) (file_content : option (list Byte.byte))
    (filename : option string)
| GetFile (file_uuid : UUID)
| DeleteFile (file_uuid : UUID)
| ListWorkflows
| CreateWorkflow (workflow_data : Model)
| GetWorkflow (workflow_uuid : UUID)
| OverrideWorkflow (workflow_uuid : UUID) (workflow_data : Model)
| UpdateWorkflow (workflow_uuid : UUID) (workflow_data : Model)
| DeleteWorkflow (workflow_uuid : UUID)
| ListWorkflowRuns (workflow_uuid : UUID)
| CreateWorkflowRun (workflow_uuid : UUID) (run_data : Model)
| GetWorkflowRunDetails (workflow_uuid : UUID) (run_num : Z)
| GetWorkflowRunResults (workflow_uuid : UUID) (run_num : Z)
    (accept_format : RunResultResponseFormat) (format_option : option string).

Inductive Answer :=
| ANone
| AModel (m : Model)
| AModels (ms : list Model)
| AResults (r : RunResults).

Definition perform (env : Environment) (self : loc) (call : Call) : M Answer :=
  match call with
  | ListFiles => ms ← list_files env self; mret (AModels ms)
  | UploadFile p c f => m ← upload_file env self p c f; mret (AModel m)
  | GetFile u => m ← get_file env self u; mret (AModel m)
  | DeleteFile u => delete_file env self u;; mret ANone
  | ListWorkflows => ms ← list_workflows env self; mret (AModels ms)
  | CreateWorkflow d => m ← create_workflow env self d; mret (AModel m)
  | GetWorkflow u => m ← get_workflow env self u; mret (AModel m)
  | OverrideWorkflow u d => m ← override_workflow env self u d; mret (AModel m)
  | UpdateWorkflow u d => m ← update_workflow env self u d; mret (AModel m)
  | DeleteWorkflow u => delete_workflow env self u;; mret ANone
  | ListWorkflowRuns u => ms ← list_workflow_runs env self u; mret (AModels ms)
  | CreateWorkflowRun u d => m ← create_workflow_run env self u d; mret (AModel m)
  | GetWorkflowRunDetails u n => m ← get_workflow_run_details env self u n; mret (AModel m)
  | GetWorkflowRunResults u n f o =>
      r ← get_workflow_run_results env self u n f o; mret (AResults r)
  end.

(** * Vocabulary of the properties *)

(** ** Reading a state *)

(** The object at [self] is a client with attributes [c] whose header
    dictionary holds [base]. *)
Definition client_at (σ : State) (self : loc) (c : DocumentExtractorAPIClient)
    (base : gmap string string) : Prop :=
  heap σ !! self = Some (ClientObj c) ∧ heap σ !! headers c = Some (DictObj base).

(** The header overrides a call passes: none, or the dictionary [ov]. *)
Definition overrides_at (σ : State) (kwargs : Kwargs) (ov : gmap string string) : Prop :=
  match kw_headers kwargs with
  | None => ov = ∅
  | Some h => heap σ !! h = Some (DictObj ov)
  end.

(** The request [_request] hands to the library when the merged headers are
    [hs]. *)
Definition request_of (c : DocumentExtractorAPIClient) (method path : string)
    (kwargs : Kwargs) (hs : gmap string string) : Request :=
  {| req_method := method; req_url := root_url c +:+ path; req_headers := hs;
     req_params := kw_params kwargs; req_json := kw_json kwargs;
     req_files := kw_files kwargs |}.

(** What [_request] makes of the outcome of its single round trip. *)
Definition dispatch_result (env : Environment) (url : string) (parse_json : bool)
    (outcome : Outcome) : result (Dispatched parse_json) :=
  match outcome with
  | Responded response =>
      if raise_for_status response then
        Raised (classify_http_error (str_other env) url (Some response))
      else
        match parse_json return result (Dispatched parse_json) with
        | false => Returned response
        | true =>
            if status_code response =? 204 then Returned VNone
            else
              match json response with
              | JsonOk v => Returned v
              | JsonDecodeError msg =>
                  Raised (DocumentExtractorAPIError
                            ("Request failed for " +:+ url +:+ ": " +:+ msg)
                            None VNone)
              end
        end
  | HTTPErrorRaised response =>
      Raised (classify_http_error (str_other env) url response)
  | RequestExceptionRaised msg =>
      Raised (DocumentExtractorAPIError
                ("Request failed for " +:+ url +:+ ": " +:+ msg) None VNone)
  end.

(** The state after [_request]: the merged copy is a new object and the
    request is the last entry of the trace. *)
Definition after_request (σ : State) (hs : gmap string string) (req : Request) : State :=
  {| heap := <[fresh (dom (heap σ)) := DictObj hs]> (heap σ);
     trace := trace σ ++ [req] |}.

(** The dictionary [__init__] builds. *)
Definition base_headers (api_key : string) : gmap string string :=
  <["Authorization" := "Bearer " +:+ api_key]> (<["Accept" := "application/json"]> ∅).

(** The [response] attribute of the [HTTPError] that an outcome raises inside
    the [try] block, if it raises one. *)
Definition http_error_of (o : Outcome) : option (option Response) :=
  match o with
  | Responded r => if raise_for_status r then Some (Some r) else None
  | HTTPErrorRaised response => Some response
  | RequestExceptionRaised _ => None
  end.

(** What [get_workflow_run_results] makes of the response object the
    dispatcher returned. *)
Definition interpret_results (env : Environment) (accept_format : RunResultResponseFormat)
    (response : Response) : result RunResults :=
  match accept_format with
  | JSON =>
      match json response with
      | JsonOk (VDict kw) =>
          match model_init env RunResult kw with
          | Built m => Returned (ResultModel m)
          | InitTypeError msg =>
              Raised (ValueError ("Mismatched JSON structure for RunResult: "
                                    +:+ str_other env (VDict kw)
                                    +:+ ". Error: " +:+ msg))
          | InitValidationError msg => Raised (ValidationError msg)
          end
      | JsonOk v =>
          Raised (ValueError ("Mismatched JSON structure for RunResult: "
                                +:+ py_format (str_other env) v
                                +:+ ". Error: " +:+ unpack_error env RunResult v))
      | JsonDecodeError _ =>
          Raised (ValueError "Failed to decode JSON response for RunResult.")
      end
  | CSV => Returned (ResultText (text response))
  | EXCEL => Returned (ResultBytes (content response))
  | OtherFormat _ =>
      Raised (ValueError ("Unsupported accept_format: " +:+ enum_str env accept_format))
  end.

(** The keyword arguments of the dispatcher call of
    [get_workflow_run_results]; [custom_headers] is the copy it made. *)
Definition results_kwargs (custom_headers : loc) (format_option : option string) : Kwargs :=
  {| kw_headers := Some custom_headers;
     kw_params := Some (results_params format_option);
     kw_json := None; kw_files := None |}.

(** The request of [get_workflow_run_results] from state [σ]. *)
Definition results_request (env : Environment) (σ : State)
    (c : DocumentExtractorAPIClient) (base : gmap string string)
    (workflow_uuid : UUID) (run_num : Z) (accept_format : RunResultResponseFormat)
    (format_option : option string) : Request :=
  request_of c "GET" (results_path workflow_uuid run_num)
    (results_kwargs (fresh (dom (heap σ))) format_option)
    (<["Accept" := enum_value env accept_format]> base).

(** The state after it: two new dictionaries, one more request. *)
Definition after_results (σ : State) (hs : gmap string string) (req : Request) : State :=
  after_request
    {| heap := <[fresh (dom (heap σ)) := DictObj hs]> (heap σ); trace := trace σ |}
    hs req.

(** [m] leaves every object that exists when it starts as it is, unless the
    object's location satisfies [X]. *)
Definition touches_only {A} (X : loc → Prop) (m : M A) : Prop :=
  ∀ σ l o, heap σ !! l = Some o → ¬ X l → heap (m σ).2 !! l = Some o.

Definition nothing : loc → Prop := λ _, False.

(** ** Strings, endpoints and failures *)

(** [n] slashes in a row. *)
Fixpoint slashes (n : nat) : string :=
  match n with
  | O => EmptyString
  | S n => String "/"%char (slashes n)
  end.

Definition has_slash (s : string) : bool :=
  existsb (Ascii.eqb "/"%char) (list_ascii_of_string s).

(** The method and the path of the request each public operation makes. *)
Definition endpoint (call : Call) : string * string :=
  match call with
  | ListFiles => ("GET", "/v1/files/")
  | UploadFile _ _ _ => ("POST", "/v1/files/")
  | GetFile u => ("GET", "/v1/files/" +:+ u)
  | DeleteFile u => ("DELETE", "/v1/files/" +:+ u)
  | ListWorkflows => ("GET", "/v1/workflows/")
  | CreateWorkflow _ => ("POST", "/v1/workflows/")
  | GetWorkflow u => ("GET", "/v1/workflows/" +:+ u)
  | OverrideWorkflow u _ => ("PUT", "/v1/workflows/" +:+ u)
  | UpdateWorkflow u _ => ("PATCH", "/v1/workflows/" +:+ u)
  | DeleteWorkflow u => ("DELETE", "/v1/workflows/" +:+ u)
  | ListWorkflowRuns u => ("GET", "/v1/workflows/" +:+ u +:+ "/runs/")
  | CreateWorkflowRun u _ => ("POST", "/v1/workflows/" +:+ u +:+ "/runs/")
  | GetWorkflowRunDetails u n =>
      ("GET", "/v1/workflows/" +:+ u +:+ "/runs/" +:+ pretty n)
  | GetWorkflowRunResults u n _ _ => ("GET", results_path u n)
  end.

(** The calls that end before anything is sent: an upload of content without
    a filename, and an upload from a path that cannot be opened. *)
Definition stops_locally (env : Environment) (call : Call) : bool :=
  match call with
  | UploadFile _ (Some _) None => true
  | UploadFile file_path None _ =>
      match read_file env file_path with
      | inl _ => false
      | inr _ => true
      end
  | _ => false
  end.

(** The exception the dispatcher raises for an outcome that is a failure. *)
Definition failure_of (env : Environment) (url : string) (o : Outcome) : option exn :=
  match o with
  | Responded r =>
      if raise_for_status r
      then Some (classify_http_error (str_other env) url (Some r))
      else None
  | HTTPErrorRaised response =>
      Some (classify_http_error (str_other env) url response)
  | RequestExceptionRaised msg =>
      Some (DocumentExtractorAPIError
              ("Request failed for " +:+ url +:+ ": " +:+ msg) None VNone)
  end.

(** A computation that leaves the state as it is. *)
Definition silent {A} (m : M A) : Prop := ∀ σ, (m σ).2 = σ.

(** The class an operation builds from the decoded body, and whether the
    body is a list of such objects; the deletions and the run results do not
    go through the dispatcher's JSON decoding. *)
Definition body_kind (call : Call) : option (ModelClass * bool) :=
  match call with
  | ListFiles => Some (FileResponse, true)
  | UploadFile _ _ _ | GetFile _ => Some (FileResponse, false)
  | ListWorkflows => Some (WorkflowResponse, true)
  | CreateWorkflow _ | GetWorkflow _ | OverrideWorkflow _ _ | UpdateWorkflow _ _ =>
      Some (WorkflowResponse, false)
  | ListWorkflowRuns _ => Some (RunResponse, true)
  | CreateWorkflowRun _ _ | GetWorkflowRunDetails _ _ => Some (RunResponse, false)
  | DeleteFile _ | DeleteWorkflow _ | GetWorkflowRunResults _ _ _ _ => None
  end.

(** The class [cls] accepts the item as keyword arguments and builds [m]. *)
Definition built (env : Environment) (cls : ModelClass) (item : value) (m : Model) : Prop :=
  ∃ kw, item = VDict kw ∧ model_init env cls kw = Built m.

(** ** Body bytes and text *)

(** The charsets under which the HTTP library turns body bytes into the
    [text] of a response that matter here: UTF-8, and ISO-8859-1, which it
    takes for a [text/...] body whose Content-Type names no charset. *)
Inductive Charset := UTF8 | Latin1.

Definition is_ascii_byte (b : Byte.byte) : bool := (Byte.to_N b <? 128)%N.

(** ISO-8859-1: every byte is the character with its code. *)
Fixpoint latin1_decode (bs : list Byte.byte) : string :=
  match bs with
  | [] => EmptyString
  | b :: rest => String (ascii_of_byte b) (latin1_decode rest)
  end.

(** UTF-8 of a text whose characters have codes below 256: one byte up to
    127, two bytes from 128 on. *)
Fixpoint utf8_encode (s : string) : list Byte.byte :=
  match s with
  | EmptyString => []
  | String ch rest =>
      let n := N_of_ascii ch in
      if (n <? 128)%N then byte_of_ascii ch :: utf8_encode rest
      else byte_of_ascii (ascii_of_N (192 + n / 64))
           :: byte_of_ascii (ascii_of_N (128 + n mod 64))
           :: utf8_encode rest
  end.

(** [s] is what decoding the bytes [bs] under the charset gives. *)
Definition decoded_as (cs : Charset) (bs : list Byte.byte) (s : string) : Prop :=
  match cs with
  | UTF8 => bs = utf8_encode s
  | Latin1 => s = latin1_decode bs
  end.

(** ** A concrete service, for evaluating the methods *)

(** An environment whose service gives the same outcome to every request. *)
Definition answering (o : Outcome) : Environment :=
  {| server := λ _ _, o;
     str_other := λ v, match v with
                       | VNone => "None"
                       | VBool true => "True"
                       | VBool false => "False"
                       | VInt n => pretty n
                       | _ => "<object>"
                       end;
     guess_type := λ name, if String.eqb (last_segment name) "a.txt"
                           then Some "text/plain" else None;
     read_file := λ _, inr "No such file or directory";
     model_init := λ cls kw, if dict_has "id" kw
                             then Built {| model_class := cls; model_fields := kw |}
                             else InitValidationError "id: Field required";
     unpack_error := λ _ v, "argument after ** must be a mapping, not " +:+ type_name v;
     model_dump := λ m _ _, VDict (model_fields m);
     enum_value := λ f, match f with
                        | JSON => "application/json"
                        | CSV => "text/csv"
                        | EXCEL => "application/vnd.ms-excel"
                        | OtherFormat name => name
                        end;
     enum_str := λ f, match f with
                      | JSON => "RunResultResponseFormat.JSON"
                      | CSV => "RunResultResponseFormat.CSV"
                      | EXCEL => "RunResultResponseFormat.EXCEL"
                      | OtherFormat name => "RunResultResponseFormat." +:+ name
                      end |}.

(** The state right after constructing one client in an empty heap. *)
Definition fresh_state : State :=
  (__init__ "https://api.documentextractor.ai/" "secret" {| heap := ∅; trace := [] |}).2.

Definition the_client : DocumentExtractorAPIClient :=
  {| root_url := "https://api.documentextractor.ai"; api_key := "secret";
     headers := 1%positive |}.

Definition body_response (code : Z) (body : string) (decoded : JsonOutcome) : Response :=
  {| status_code := code; text := body; content := []; json := decoded |}.

(** A state in which a caller has built a dictionary of header overrides. *)
Definition override_state : State :=
  (alloc (DictObj (<["Accept" := "text/csv"]> ∅)) fresh_state).2.

Definition override_kwargs : Kwargs :=
  {| kw_headers := Some 3%positive; kw_params := None; kw_json := None;
     kw_files := None |}.

(** A body that is itself a JSON string: the four characters [oops] between
    double quotes. *)
Definition json_string_response : Response :=
  body_response 404 (String "034" ("oops" +:+ String "034" EmptyString))
    (JsonOk (VStr "oops")).

Definition empty_ok : Response :=
  body_response 200 "" (JsonDecodeError "Expecting value").

Definition csv_response : Response :=
  {| status_code := 200; text := "id,total";
     content := [Byte.x69; Byte.x64; Byte.x2c; Byte.x74; Byte.x6f; Byte.x74;
                 Byte.x61; Byte.x6c];
     json := JsonDecodeError "Expecting value" |}.

Definition result_response : Response :=
  body_response 200 "(a JSON object with the fields id and data)"
    (JsonOk (VDict [("id", VInt 7); ("data", VDict [])])).

Definition no_content : Response :=
  body_response 204 "" (JsonDecodeError "Expecting value").

Definition two_files : Response :=
  body_response 200 "(a JSON list of two file objects)"
    (JsonOk (VList [VDict [("id", VStr "f1")]; VDict [("id", VStr "f2")]])).

Definition mixed_files : Response :=
  body_response 200 "(a JSON list: a file object, an object without id, a number)"
    (JsonOk (VList [VDict [("id", VStr "f1")]; VDict [("name", VStr "x")]; VInt 3])).

(** A CSV body holding the two bytes of an e with acute accent in UTF-8,
    sent without a charset and so decoded as ISO-8859-1. *)
Definition latin1_csv : Response :=
  {| status_code := 200; text := latin1_decode [Byte.xc3; Byte.xa9];
     content := [Byte.xc3; Byte.xa9];
     json := JsonDecodeError "Expecting value" |}.

(** * Properties *)

Lemma fresh_loc_ne (σ : State) (l : loc) (o : object) :
  heap σ !! l = Some o → fresh (dom (heap σ)) ≠ l.
Proof.
  intros Hl Heq. apply (is_fresh (dom (heap σ))).
  rewrite Heq. apply elem_of_dom. eauto.
Qed.

Lemma _request_run env self method path parse_json kwargs σ c base ov :
  client_at σ self c base →
  overrides_at σ kwargs ov →
  let req := request_of c method path kwargs (ov ∪ base) in
  _request env self method path parse_json kwargs σ
  = (dispatch_result env (root_url c +:+ path) parse_json (server env (trace σ) req),
     after_request σ (ov ∪ base) req).
Proof.
  intros [Hself Hbase] Hov req.
  unfold _request, mbind, M_bind, load_client, dict_copy, mbind, M_bind, load_dict.
  rewrite Hself, Hbase. unfold alloc. cbn [heap trace].
  unfold overrides_at in Hov.
  destruct (kw_headers kwargs) as [h|] eqn:Hh.
  - unfold dict_update, mbind, M_bind, load_dict, store. cbn [heap trace].
    rewrite lookup_insert_eq. cbn [heap trace].
    rewrite lookup_insert_ne by (eapply fresh_loc_ne; eauto).
    rewrite Hov. cbn [heap trace]. rewrite lookup_insert_eq.
    unfold requests_request. cbn [heap trace].
    rewrite insert_insert_eq.
    unfold req, request_of, after_request, dispatch_result, raise, mret, M_ret.
    destruct (server env (trace σ) _) as [r| |]; cbv beta iota; try done.
    destruct (raise_for_status r); [done|].
    destruct parse_json; [|done].
    destruct (status_code r =? 204); [done|]. by destruct (json r).
  - subst ov. subst req. rewrite (left_id_L ∅ (∪)). unfold mret, M_ret. cbn [heap trace].
    rewrite lookup_insert_eq.
    unfold requests_request. cbn [heap trace].
    unfold request_of, after_request, dispatch_result, raise, mret, M_ret.
    destruct (server env (trace σ) _) as [r| |]; cbv beta iota; try done.
    destruct (raise_for_status r); [done|].
    destruct parse_json; [|done].
    destruct (status_code r =? 204); [done|]. by destruct (json r).
Qed.

Lemma __init___run root key σ :
  let h := fresh (dom (heap σ)) in
  let c := {| root_url := rstrip_slash root; api_key := key; headers := h |} in
  let heap1 := <[h := DictObj (base_headers key)]> (heap σ) in
  __init__ root key σ
  = (Returned (fresh (dom heap1)),
     {| heap := <[fresh (dom heap1) := ClientObj c]> heap1; trace := trace σ |}).
Proof. reflexivity. Qed.

Lemma __init___client_at root key σ :
  ∃ self c,
    (__init__ root key σ).1 = Returned self ∧
    root_url c = rstrip_slash root ∧ api_key c = key ∧
    client_at (__init__ root key σ).2 self c (base_headers key).
Proof.
  rewrite __init___run. cbn [fst snd].
  set (h := fresh (dom (heap σ))).
  set (heap1 := <[h := DictObj (base_headers key)]> (heap σ)).
  exists (fresh (dom heap1)),
    {| root_url := rstrip_slash root; api_key := key; headers := h |}.
  split; [reflexivity|]. split; [reflexivity|]. split; [reflexivity|].
  split; cbn [heap headers].
  - apply lookup_insert_eq.
  - rewrite lookup_insert_ne.
    + apply lookup_insert_eq.
    + intros Heq. apply (is_fresh (dom heap1)).
      rewrite Heq. unfold heap1. rewrite dom_insert_L. set_solver.
Qed.

(** The constructor strips the trailing slash; a request of the new client
    goes to the joined URL, and a 404 answer comes back as a client request
    failure with that status. *)
Example get_file_not_found :
  (get_file (answering (Responded (body_response 404 "Not Found"
                                     (JsonDecodeError "Expecting value"))))
     2%positive "0f8fad5b" fresh_state).1
  = Raised (ClientRequestError "Client error 404: Not Found" 404 (VStr "Not Found")) ∧
  req_url <$> trace (get_file (answering (Responded (body_response 404 "Not Found"
                                     (JsonDecodeError "Expecting value"))))
     2%positive "0f8fad5b" fresh_state).2
  = ["https://api.documentextractor.ai/v1/files/0f8fad5b"].
Proof. split; vm_compute; reflexivity. Qed.

(** ** Classification of HTTP errors *)

Lemma dispatch_result_http_error env url parse_json o response :
  http_error_of o = Some response →
  dispatch_result env url parse_json o
  = Raised (classify_http_error (str_other env) url response).
Proof.
  destruct o as [r| |]; unfold dispatch_result, http_error_of; intros H.
  - destruct (raise_for_status r); [by inversion H | discriminate].
  - by inversion H.
  - discriminate.
Qed.

Lemma classify_401 f url r :
  status_code r = 401 →
  classify_http_error f url (Some r) = AuthenticationError (error_details (Some r)).
Proof. intros H. unfold classify_http_error. by rewrite H. Qed.

Lemma classify_403 f url r :
  status_code r = 403 →
  classify_http_error f url (Some r) = ForbiddenError (error_details (Some r)).
Proof. intros H. unfold classify_http_error. by rewrite H. Qed.

Lemma classify_4xx f url r :
  400 ≤ status_code r ≤ 499 → status_code r ≠ 401 → status_code r ≠ 403 →
  classify_http_error f url (Some r)
  = ClientRequestError
      (client_error_message f (status_code r) (error_details (Some r)))
      (status_code r) (error_details (Some r)).
Proof.
  intros H H1 H3. unfold classify_http_error.
  destruct (Z.eqb_spec (status_code r) 401); [done|].
  destruct (Z.eqb_spec (status_code r) 403); [done|].
  destruct (Z.eqb_spec (status_code r) 0); [lia|].
  destruct (Z.leb_spec 400 (status_code r)); [|lia].
  destruct (Z.ltb_spec (status_code r) 500); [|lia]. done.
Qed.

Lemma classify_5xx f url r :
  500 ≤ status_code r ≤ 599 →
  classify_http_error f url (Some r)
  = APIServerError ("Server error " +:+ pretty (status_code r))
      (status_code r) (error_details (Some r)).
Proof.
  intros H. unfold classify_http_error.
  destruct (Z.eqb_spec (status_code r) 401); [lia|].
  destruct (Z.eqb_spec (status_code r) 403); [lia|].
  destruct (Z.eqb_spec (status_code r) 0); [lia|].
  destruct (Z.leb_spec 400 (status_code r)); [|lia].
  destruct (Z.ltb_spec (status_code r) 500); [lia|].
  destruct (Z.leb_spec 500 (status_code r)); [|lia].
  destruct (Z.ltb_spec (status_code r) 600); [|lia]. done.
Qed.

Lemma classify_other f url r :
  ¬ (400 ≤ status_code r ≤ 599) →
  ∃ msg, classify_http_error f url (Some r)
         = DocumentExtractorAPIError msg (Some (status_code r)) (error_details (Some r)).
Proof.
  intros H. unfold classify_http_error.
  destruct (Z.eqb_spec (status_code r) 401); [lia|].
  destruct (Z.eqb_spec (status_code r) 403); [lia|].
  destruct (Z.leb_spec 400 (status_code r)).
  - destruct (Z.ltb_spec (status_code r) 500); [lia|].
    destruct (Z.leb_spec 500 (status_code r)); [|lia].
    destruct (Z.ltb_spec (status_code r) 600); [lia|].
    rewrite !andb_false_r. eauto.
  - rewrite !andb_false_r. cbn [andb].
    destruct (Z.leb_spec 500 (status_code r)); [lia|].
    rewrite !andb_false_r. cbn [andb]. eauto.
Qed.

(** Every classified exception is one of the client's own and carries the
    error details. *)
Lemma classify_api_error f url response :
  is_api_error (classify_http_error f url response) = true ∧
  exn_details (classify_http_error f url response) = Some (error_details response).
Proof.
  unfold classify_http_error. destruct response as [r|]; [|done].
  repeat match goal with |- context [if ?b then _ else _] => destruct b end; done.
Qed.

Lemma fresh_state_client_at :
  client_at fresh_state 2%positive the_client (base_headers "secret").
Proof. split; vm_compute; reflexivity. Defined.

(** C2, as the code has it: the dispatcher classifies what the library raises
    as an [HTTPError], which for a response that came back is the case exactly
    for the status codes from 400 to 599.  Status 401 gives an authentication
    failure, 403 an authorization failure, any other status from 400 to 499 a
    client request failure carrying the status, 500 to 599 a server failure
    carrying the status; an [HTTPError] that the library raises with any
    other status, or with no response and so no status code, gives the
    generic API failure.  A response with any other status outside 200 to 299
    is not classified: the dispatcher hands it back as it does a success. *)
Theorem status_classification env self method path kwargs σ c base ov :
  client_at σ self c base →
  overrides_at σ kwargs ov →
  let o := server env (trace σ) (request_of c method path kwargs (ov ∪ base)) in
  (∀ r parse_json, o = Responded r ∨ o = HTTPErrorRaised (Some r) →
     let code := status_code r in
     let details := error_details (Some r) in
     let run := (_request env self method path parse_json kwargs σ).1 in
     (code = 401 → run = Raised (AuthenticationError details)) ∧
     (code = 403 → run = Raised (ForbiddenError details)) ∧
     (400 ≤ code ≤ 499 → code ≠ 401 → code ≠ 403 →
        ∃ msg, run = Raised (ClientRequestError msg code details)) ∧
     (500 ≤ code ≤ 599 →
        ∃ msg, run = Raised (APIServerError msg code details))) ∧
  (∀ r parse_json, o = HTTPErrorRaised (Some r) → ¬ (400 ≤ status_code r ≤ 599) →
     ∃ msg, (_request env self method path parse_json kwargs σ).1
            = Raised (DocumentExtractorAPIError msg (Some (status_code r))
                        (error_details (Some r)))) ∧
  (∀ parse_json, o = HTTPErrorRaised None →
     ∃ msg, (_request env self method path parse_json kwargs σ).1
            = Raised (DocumentExtractorAPIError msg None VNone)) ∧
  (∀ r, o = Responded r → ¬ (400 ≤ status_code r ≤ 599) →
     (_request env self method path false kwargs σ).1 = Returned r ∧
     (∀ v, status_code r ≠ 204 → json r = JsonOk v →
        (_request env self method path true kwargs σ).1 = Returned v)).
Proof.
  intros Hc Hov o.
  assert (Herr : ∀ response parse_json, http_error_of o = Some response →
            (_request env self method path parse_json kwargs σ).1
            = Raised (classify_http_error (str_other env) (root_url c +:+ path) response)).
  { intros response parse_json H.
    rewrite (_request_run _ _ _ _ _ _ _ _ _ _ Hc Hov). cbn [fst].
    by apply dispatch_result_http_error. }
  assert (Hraise : ∀ r, 400 ≤ status_code r ≤ 599 → raise_for_status r = true).
  { intros r H. unfold raise_for_status. apply andb_true_iff. lia. }
  assert (Hof : ∀ r, (o = Responded r ∨ o = HTTPErrorRaised (Some r)) →
            400 ≤ status_code r ≤ 599 → http_error_of o = Some (Some r)).
  { intros r [-> | ->] H; cbn [http_error_of]; [by rewrite (Hraise r H) | done]. }
  split; [|split; [|split]].
  - intros r parse_json Ho code details run. unfold run, details, code.
    repeat split.
    + intros H. rewrite (Herr (Some r)) by (apply Hof; [done|lia]).
      f_equal. by apply classify_401.
    + intros H. rewrite (Herr (Some r)) by (apply Hof; [done|lia]).
      f_equal. by apply classify_403.
    + intros H H1 H3. rewrite (Herr (Some r)) by (apply Hof; [done|lia]).
      eexists. f_equal. by apply classify_4xx.
    + intros H. rewrite (Herr (Some r)) by (apply Hof; [done|lia]).
      eexists. f_equal. by apply classify_5xx.
  - intros r parse_json Ho H. rewrite (Herr (Some r)) by by rewrite Ho.
    destruct (classify_other (str_other env) (root_url c +:+ path) r H) as [msg ->].
    by exists msg.
  - intros parse_json Ho. rewrite (Herr None) by by rewrite Ho.
    eexists. reflexivity.
  - intros r Ho H.
    assert (Hok : raise_for_status r = false).
    { unfold raise_for_status. apply andb_false_iff. lia. }
    rewrite !(_request_run _ _ _ _ _ _ _ _ _ _ Hc Hov). cbn [fst].
    fold o. rewrite Ho. unfold dispatch_result. rewrite Hok.
    split; [done|]. intros v H204 Hv.
    destruct (Z.eqb_spec (status_code r) 204); [done|]. by rewrite Hv.
Qed.

Lemma status_classification_witness :
  let r := body_response 404 "Not Found" (JsonDecodeError "Expecting value") in
  client_at fresh_state 2%positive the_client (base_headers "secret") ∧
  ∃ msg,
    (_request (answering (Responded r)) 2%positive "GET" "/v1/files/" true
       no_kwargs fresh_state).1
    = Raised (ClientRequestError msg 404 (VStr "Not Found")).
Proof.
  intros r. split; [exact fresh_state_client_at|].
  destruct (status_classification (answering (Responded r))
              2%positive "GET" "/v1/files/" no_kwargs fresh_state the_client
              (base_headers "secret") ∅ fresh_state_client_at eq_refl)
    as [Hstatus _].
  destruct (Hstatus r true (or_introl eq_refl)) as (_ & _ & H4 & _).
  apply H4; cbn; lia.
Defined.

(** C2 as stated fails for a status that is neither 2xx nor 4xx nor 5xx: the
    library raises nothing for it, and the dispatcher returns the response
    object, or the decoded body, where the claim has a generic API failure. *)
Lemma redirect_not_classified :
  status_code (body_response 304 "" (JsonDecodeError "Expecting value")) = 304 ∧
  (_request (answering (Responded (body_response 304 "" (JsonDecodeError "Expecting value"))))
     2%positive "GET" "/v1/files/f1" false no_kwargs fresh_state).1
  = Returned (body_response 304 "" (JsonDecodeError "Expecting value")) ∧
  (_request (answering (Responded (body_response 300 "[]" (JsonOk (VList [])))))
     2%positive "GET" "/v1/files/" true no_kwargs fresh_state).1
  = Returned (VList []).
Proof. repeat split; vm_compute; reflexivity. Qed.

(** C9: whatever the body of the response of an HTTP error is, the dispatcher
    raises one of the client's own exceptions, and that exception carries the
    decoded body when the body is JSON and the body text when it is not. *)
Theorem error_details_best_effort env self method path parse_json kwargs σ c base ov r :
  client_at σ self c base →
  overrides_at σ kwargs ov →
  http_error_of (server env (trace σ) (request_of c method path kwargs (ov ∪ base)))
    = Some (Some r) →
  ∃ e, (_request env self method path parse_json kwargs σ).1 = Raised e ∧
       is_api_error e = true ∧
       exn_details e = Some (match json r with
                             | JsonOk v => v
                             | JsonDecodeError _ => VStr (text r)
                             end).
Proof.
  intros Hc Hov Herr.
  rewrite (_request_run _ _ _ _ _ _ _ _ _ _ Hc Hov). cbn [fst].
  rewrite (dispatch_result_http_error _ _ _ _ _ Herr).
  eexists. split; [reflexivity|].
  apply (classify_api_error (str_other env) (root_url c +:+ path) (Some r)).
Qed.

Lemma error_details_best_effort_witness :
  let r := body_response 500 "<html>Bad Gateway</html>" (JsonDecodeError "Expecting value") in
  client_at fresh_state 2%positive the_client (base_headers "secret") ∧
  ∃ e, (_request (answering (Responded r)) 2%positive "DELETE" "/v1/files/f1" false
          no_kwargs fresh_state).1 = Raised e ∧
       is_api_error e = true ∧
       exn_details e = Some (VStr "<html>Bad Gateway</html>").
Proof.
  intros r. split; [exact fresh_state_client_at|].
  exact (error_details_best_effort (answering (Responded r))
           2%positive "DELETE" "/v1/files/f1" false no_kwargs fresh_state the_client
           (base_headers "secret") ∅ r fresh_state_client_at eq_refl eq_refl).
Defined.

(** A response whose status is outside 2xx, 4xx and 5xx raises no
    [HTTPError] in the library; the dispatcher hands it back like a success. *)
Example not_modified_is_returned :
  (_request (answering (Responded (body_response 304 "" (JsonDecodeError "Expecting value"))))
     2%positive "GET" "/v1/files/" false no_kwargs fresh_state).1
  = Returned (body_response 304 "" (JsonDecodeError "Expecting value")).
Proof. vm_compute. reflexivity. Qed.

(** ** Successful responses *)

(** C5, as the code has it: for a response with a status from 200 to 299, a
    call with the parse-JSON flag set returns the decoded body when the status
    is not 204 and returns [None], which is not an empty object, when the
    status is 204; a call with the flag unset returns the response object
    itself, whatever the 2xx status, 204 included. *)
Theorem success_return env self method path kwargs σ c base ov r :
  client_at σ self c base →
  overrides_at σ kwargs ov →
  server env (trace σ) (request_of c method path kwargs (ov ∪ base)) = Responded r →
  200 ≤ status_code r ≤ 299 →
  (∀ v, status_code r ≠ 204 → json r = JsonOk v →
        (_request env self method path true kwargs σ).1 = Returned v) ∧
  (status_code r = 204 →
        (_request env self method path true kwargs σ).1 = Returned VNone ∧
        VNone ≠ VDict []) ∧
  (_request env self method path false kwargs σ).1 = Returned r.
Proof.
  intros Hc Hov Hr Hcode.
  rewrite !(_request_run _ _ _ _ _ _ _ _ _ _ Hc Hov). cbn [fst].
  rewrite Hr. unfold dispatch_result, raise_for_status.
  destruct (Z.ltb_spec (status_code r) 600); [|lia].
  destruct (Z.leb_spec 400 (status_code r)); [lia|]. cbn [andb].
  repeat split.
  - intros v Hne Hv. destruct (Z.eqb_spec (status_code r) 204); [done|].
    by rewrite Hv.
  - by destruct (Z.eqb_spec (status_code r) 204).
  - done.
Qed.

Lemma success_return_witness :
  let r := body_response 204 "" (JsonDecodeError "Expecting value") in
  client_at fresh_state 2%positive the_client (base_headers "secret") ∧
  200 ≤ status_code r ≤ 299 ∧
  (_request (answering (Responded r)) 2%positive "GET" "/v1/files/f1" true
     no_kwargs fresh_state).1 = Returned VNone ∧
  (_request (answering (Responded r)) 2%positive "GET" "/v1/files/f1" false
     no_kwargs fresh_state).1 = Returned r.
Proof.
  intros r. split; [exact fresh_state_client_at|].
  split; [cbn; lia|].
  destruct (success_return (answering (Responded r)) 2%positive "GET" "/v1/files/f1"
              no_kwargs fresh_state the_client (base_headers "secret") ∅ r
              fresh_state_client_at eq_refl eq_refl ltac:(cbn; lia))
    as (_ & H204 & Hraw).
  split; [exact (proj1 (H204 eq_refl)) | exact Hraw].
Defined.

(** C5 as stated fails for a 204 response when the flag is unset: the
    response object is returned, not [None]. *)
Lemma no_content_flag_unset :
  status_code (body_response 204 "" (JsonDecodeError "Expecting value")) = 204 ∧
  (_request (answering (Responded (body_response 204 "" (JsonDecodeError "Expecting value"))))
     2%positive "DELETE" "/v1/files/f1" false no_kwargs fresh_state).1
  = Returned (body_response 204 "" (JsonDecodeError "Expecting value")).
Proof. split; vm_compute; reflexivity. Qed.

(** ** Headers *)

(** C8: the headers of the request a dispatcher call sends are the client's
    base headers merged with the caller's overrides: a key of the overrides
    has the override's value, every other key has the value of the base
    dictionary, which for the dictionary built at construction is the bearer
    token under [Authorization] and [application/json] under [Accept]. *)
Theorem header_merge env self method path parse_json kwargs σ c base ov :
  client_at σ self c base →
  overrides_at σ kwargs ov →
  ∃ req,
    trace (_request env self method path parse_json kwargs σ).2 = (trace σ ++ [req])%list ∧
    (∀ k v, ov !! k = Some v → req_headers req !! k = Some v) ∧
    (∀ k, ov !! k = None → req_headers req !! k = base !! k) ∧
    (base = base_headers (api_key c) →
       (ov !! "Authorization" = None →
          req_headers req !! "Authorization" = Some ("Bearer " +:+ api_key c)) ∧
       (ov !! "Accept" = None →
          req_headers req !! "Accept" = Some "application/json")).
Proof.
  intros Hc Hov.
  rewrite (_request_run _ _ _ _ _ _ _ _ _ _ Hc Hov). cbn [snd after_request trace].
  eexists. split; [reflexivity|]. cbn [request_of req_headers].
  assert (Hmiss : ∀ k, ov !! k = None → (ov ∪ base) !! k = base !! k).
  { intros k Hk. rewrite lookup_union, Hk. by destruct (base !! k). }
  split; [|split; [exact Hmiss|]].
  - intros k v Hk. by apply lookup_union_Some_l.
  - intros ->. split; intros Hk; rewrite (Hmiss _ Hk); unfold base_headers.
    + apply lookup_insert_eq.
    + rewrite lookup_insert_ne by done. apply lookup_insert_eq.
Qed.

Lemma override_state_client_at :
  client_at override_state 2%positive the_client (base_headers "secret").
Proof. split; vm_compute; reflexivity. Defined.

Lemma override_state_overrides_at :
  overrides_at override_state override_kwargs (<["Accept" := "text/csv"]> ∅).
Proof. vm_compute. reflexivity. Defined.

Lemma header_merge_witness :
  client_at override_state 2%positive the_client (base_headers "secret") ∧
  overrides_at override_state override_kwargs (<["Accept" := "text/csv"]> ∅) ∧
  ∃ req,
    trace (_request (answering (RequestExceptionRaised "timeout")) 2%positive "GET"
             "/v1/files/" true override_kwargs override_state).2 = [req] ∧
    req_headers req !! "Accept" = Some "text/csv" ∧
    req_headers req !! "Authorization" = Some "Bearer secret".
Proof.
  split; [exact override_state_client_at|].
  split; [exact override_state_overrides_at|].
  destruct (header_merge (answering (RequestExceptionRaised "timeout")) 2%positive "GET"
              "/v1/files/" true override_kwargs override_state the_client
              (base_headers "secret") (<["Accept" := "text/csv"]> ∅)
              override_state_client_at override_state_overrides_at)
    as (req & Htrace & Hov & _ & Hbase).
  exists req. split; [exact Htrace|]. split.
  - apply Hov. vm_compute. reflexivity.
  - apply (Hbase eq_refl). vm_compute. reflexivity.
Defined.

(** ** Messages of client request failures *)

Lemma append_empty_r (s : string) : s +:+ EmptyString = s.
Proof.
  induction s as [|ch s IH]; [done|].
  change (String ch (s +:+ EmptyString) = String ch s). by f_equal.
Qed.

Lemma contains_suffix (a s : string) : contains s (a +:+ s).
Proof. exists a, EmptyString. by rewrite append_empty_r. Qed.

Lemma append_assoc_r (a b c : string) : (a +:+ b) +:+ c = a +:+ b +:+ c.
Proof.
  induction a as [|ch a IH]; [done|].
  change (String ch ((a +:+ b) +:+ c) = String ch (a +:+ b +:+ c)). by f_equal.
Qed.

Lemma contains_middle (a s b : string) : contains s (a +:+ s +:+ b).
Proof. by exists a, b. Qed.

Lemma contains_suffix2 (a b s : string) : contains s (a +:+ b +:+ s).
Proof. rewrite <- append_assoc_r. apply contains_suffix. Qed.

Lemma contains_empty (t : string) : contains EmptyString t.
Proof. by exists EmptyString, t. Qed.

Section client_error_message.
Variable f : value → string.
Variable code : Z.

Let generic : string := "Client error " +:+ pretty code.

Lemma message_contains_status details :
  contains (pretty code) (client_error_message f code details).
Proof.
  unfold client_error_message.
  destruct details;
    repeat match goal with |- context [if ?b then _ else _] => destruct b end;
    rewrite ?append_assoc_r;
    first [apply contains_suffix | apply contains_middle].
Qed.

Lemma message_dict_truthy d :
  truthy (dict_get "detail" d) = true →
  client_error_message f code (VDict d)
  = generic +:+ ": " +:+ py_format f (dict_get "detail" d).
Proof.
  intros H. unfold client_error_message.
  assert (truthy (VDict d) = true) as -> by by destruct d.
  by rewrite H.
Qed.

Lemma message_dict_falsy d :
  truthy (dict_get "detail" d) = false →
  client_error_message f code (VDict d) = generic.
Proof.
  intros H. unfold client_error_message. by rewrite H, andb_false_r.
Qed.

Lemma message_str_short s :
  (String.length s < 100)%nat →
  client_error_message f code (VStr s) = generic +:+ ": " +:+ s.
Proof.
  intros H. unfold client_error_message.
  by destruct (Nat.ltb_spec (String.length s) 100); [|lia].
Qed.

Lemma message_str_long s :
  (100 ≤ String.length s)%nat →
  client_error_message f code (VStr s) = generic.
Proof.
  intros H. unfold client_error_message.
  by destruct (Nat.ltb_spec (String.length s) 100); [lia|].
Qed.

Lemma message_other v :
  (∀ d, v ≠ VDict d) → (∀ s, v ≠ VStr s) →
  client_error_message f code v = generic.
Proof.
  intros Hd Hs. destruct v; try done.
  - by specialize (Hs s).
  - by specialize (Hd items).
Qed.

Lemma message_contains_str_detail d s :
  dict_get "detail" d = VStr s →
  contains s (client_error_message f code (VDict d)).
Proof.
  intros Hs. destruct (truthy (VStr s)) eqn:Ht.
  - rewrite message_dict_truthy by by rewrite Hs.
    rewrite Hs. cbn [py_format]. apply contains_suffix2.
  - destruct s; [apply contains_empty | done].
Qed.
End client_error_message.

(** C3, as the code has it: a client request failure whose decoded body is an
    object with a truthy [detail] has the message "Client error <status>:
    <detail>"; one whose error details are a string shorter than 100
    characters, be it the text of a body that is not JSON or a body that
    decodes to a JSON string, has "Client error <status>: <string>"; in every
    other case (an object without a truthy [detail], a string of 100 or more
    characters, any other decoded value) the message is exactly
    "Client error <status>". *)
Theorem client_error_message_forms f url r :
  400 ≤ status_code r ≤ 499 → status_code r ≠ 401 → status_code r ≠ 403 →
  let generic := "Client error " +:+ pretty (status_code r) in
  ∃ msg,
    classify_http_error f url (Some r)
      = ClientRequestError msg (status_code r) (error_details (Some r)) ∧
    contains (pretty (status_code r)) msg ∧
    (∀ d, json r = JsonOk (VDict d) → truthy (dict_get "detail" d) = true →
       msg = generic +:+ ": " +:+ py_format f (dict_get "detail" d) ∧
       contains (py_format f (dict_get "detail" d)) msg) ∧
    (∀ d s, json r = JsonOk (VDict d) → dict_get "detail" d = VStr s →
       contains s msg) ∧
    (∀ e, json r = JsonDecodeError e → (String.length (text r) < 100)%nat →
       msg = generic +:+ ": " +:+ text r ∧ contains (text r) msg) ∧
    (∀ s, json r = JsonOk (VStr s) → (String.length s < 100)%nat →
       msg = generic +:+ ": " +:+ s) ∧
    (∀ d, json r = JsonOk (VDict d) → truthy (dict_get "detail" d) = false →
       msg = generic) ∧
    (∀ s, error_details (Some r) = VStr s → (100 ≤ String.length s)%nat →
       msg = generic) ∧
    (∀ v, json r = JsonOk v → (∀ d, v ≠ VDict d) → (∀ s, v ≠ VStr s) →
       msg = generic).
Proof.
  intros Hcode H401 H403 generic.
  exists (client_error_message f (status_code r) (error_details (Some r))).
  split; [by apply classify_4xx|].
  split; [apply message_contains_status|].
  unfold error_details.
  split; [|split; [|split; [|split; [|split; [|split]]]]].
  - intros d Hj Hd. rewrite Hj. rewrite message_dict_truthy by done.
    split; [done|]. apply contains_suffix2.
  - intros d s Hj Hs. rewrite Hj. by apply message_contains_str_detail.
  - intros e Hj Hlen. rewrite Hj. rewrite message_str_short by done.
    split; [done|]. apply contains_suffix2.
  - intros s Hj Hlen. rewrite Hj. by apply message_str_short.
  - intros d Hj Hd. rewrite Hj. by apply message_dict_falsy.
  - intros s Hs Hlen. rewrite Hs. by apply message_str_long.
  - intros v Hj Hd Hs. rewrite Hj. by apply message_other.
Qed.

Lemma client_error_message_forms_witness :
  400 ≤ 404 ≤ 499 ∧
  exn_message (classify_http_error (λ _, "<object>") "https://api.documentextractor.ai/v1/files/f1"
                 (Some (body_response 404 "Not Found" (JsonDecodeError "Expecting value"))))
  = Some "Client error 404: Not Found".
Proof.
  split; [lia|].
  destruct (client_error_message_forms (λ _, "<object>")
              "https://api.documentextractor.ai/v1/files/f1"
              (body_response 404 "Not Found" (JsonDecodeError "Expecting value"))
              ltac:(cbn; lia) ltac:(cbn; lia) ltac:(cbn; lia))
    as (msg & Hclass & _ & _ & _ & Htext & _).
  rewrite Hclass. cbn [exn_message]. f_equal.
  apply (Htext "Expecting value" eq_refl). cbn. lia.
Defined.

(** C3 as stated fails: a JSON body without a [detail] field, here a JSON
    string, does not get the generic message. *)
Lemma client_error_json_string_body :
  exn_message (classify_http_error (λ _, "<object>") "https://api.documentextractor.ai/v1/files/f1"
                 (Some json_string_response))
    = Some "Client error 404: oops" ∧
  exn_message (classify_http_error (λ _, "<object>") "https://api.documentextractor.ai/v1/files/f1"
                 (Some json_string_response))
    ≠ Some ("Client error " +:+ pretty (status_code json_string_response)).
Proof. split; [reflexivity|]. vm_compute. discriminate. Qed.

(** A falsy [detail] is left out of the message as well. *)
Example client_error_falsy_detail :
  exn_message (classify_http_error (λ _, "False") "u"
                 (Some (body_response 422 "" (JsonOk (VDict [("detail", VBool false)])))))
  = Some "Client error 422".
Proof. reflexivity. Qed.

(** ** Upload *)

(** C4: an upload with in-memory content and no filename raises a
    [ValueError] and leaves the state as it was: nothing is sent, the
    dispatcher is not entered. *)
Theorem upload_requires_filename env self file_path data σ :
  upload_file env self file_path (Some data) None σ
  = (Raised (ValueError "filename must be provided if file_content is specified."), σ).
Proof. reflexivity. Qed.

(** ** Run results *)

Lemma insert_union_self (k v : string) (m : gmap string string) :
  <[k := v]> m ∪ m = <[k := v]> m.
Proof. by rewrite <- insert_union_l, (idemp_L (∪)). Qed.

Lemma get_workflow_run_results_run env self workflow_uuid run_num accept_format
    format_option σ c base :
  client_at σ self c base →
  let hs := <["Accept" := enum_value env accept_format]> base in
  let req := results_request env σ c base workflow_uuid run_num accept_format
               format_option in
  get_workflow_run_results env self workflow_uuid run_num accept_format format_option σ
  = (match dispatch_result env (root_url c +:+ results_path workflow_uuid run_num) false
             (server env (trace σ) req) with
     | Returned response => interpret_results env accept_format response
     | Raised e => Raised e
     end,
     after_results σ hs req).
Proof.
  intros Hc hs req. pose proof Hc as [Hself Hbase].
  set (l1 := fresh (dom (heap σ))).
  set (σ1 := {| heap := <[l1 := DictObj hs]> (heap σ); trace := trace σ |}).
  assert (Hc1 : client_at σ1 self c base).
  { split; cbn [heap σ1]; rewrite lookup_insert_ne; try done;
      eapply fresh_loc_ne; eauto. }
  assert (Hov1 : overrides_at σ1 (results_kwargs l1 format_option) hs).
  { unfold overrides_at. cbn. apply lookup_insert_eq. }
  pose proof (_request_run env self "GET" (results_path workflow_uuid run_num) false
                (results_kwargs l1 format_option) σ1 c base hs Hc1 Hov1) as Hrun.
  assert (Hmerge : hs ∪ base = hs) by apply insert_union_self.
  cbv zeta in Hrun. rewrite Hmerge in Hrun.
  unfold get_workflow_run_results.
  unfold mbind at 1, M_bind at 1, load_client. rewrite Hself.
  unfold mbind at 1, M_bind at 1, dict_copy, mbind at 1, M_bind at 1, load_dict.
  rewrite Hbase. unfold alloc. cbn [heap trace].
  unfold mbind at 1, M_bind at 1, dict_setitem, mbind at 1, M_bind at 1, load_dict,
    store.
  cbn [heap trace]. rewrite lookup_insert_eq. cbn [heap trace].
  rewrite insert_insert_eq.
  unfold mbind at 1, M_bind at 1.
  fold l1. fold hs. fold σ1. fold (results_kwargs l1 format_option).
  rewrite Hrun. cbn [trace σ1].
  fold req. unfold after_results. fold l1. fold σ1.
  destruct (dispatch_result _ _ _ _) as [response|e]; [|done].
  unfold interpret_results.
  destruct accept_format as [| | |name]; cbn [decide]; try done.
  - destruct (json response) as [v|msg]; [|done].
    unfold try_except, construct.
    destruct v; try done.
    unfold mbind, M_bind. destruct (model_init env RunResult items); done.
Qed.

Lemma dispatch_result_raised_api_error env url parse_json o e :
  dispatch_result env url parse_json o = Raised e → is_api_error e = true.
Proof.
  unfold dispatch_result. destruct o as [r|response|msg].
  - destruct (raise_for_status r).
    + intros H.
      assert (e = classify_http_error (str_other env) url (Some r)) as -> by congruence.
      apply classify_api_error.
    + destruct parse_json; [|done].
      destruct (status_code r =? 204); [done|].
      destruct (json r); [done|]. by intros [= <-].
  - intros H.
    assert (e = classify_http_error (str_other env) url response) as -> by congruence.
    apply classify_api_error.
  - by intros [= <-].
Qed.

Lemma dispatch_result_success env url r :
  raise_for_status r = false →
  dispatch_result env url false (Responded r) = Returned r.
Proof. intros H. unfold dispatch_result. by rewrite H. Qed.

Lemma raise_for_status_2xx r :
  200 ≤ status_code r ≤ 299 → raise_for_status r = false.
Proof. intros H. unfold raise_for_status. apply andb_false_iff. left. lia. Qed.

(** C1, as the code has it: for a format that is none of the three supported
    ones the dispatcher is invoked first, once, with the format's value as
    [Accept] header; when it returns a response the operation raises a
    [ValueError] naming the format, and when it raises, its exception, one of
    the client's own, is what the caller sees. *)
Theorem unsupported_format_after_dispatch env self workflow_uuid run_num accept_format
    format_option σ c base :
  client_at σ self c base →
  accept_format ≠ JSON → accept_format ≠ CSV → accept_format ≠ EXCEL →
  let req := results_request env σ c base workflow_uuid run_num accept_format
               format_option in
  let run := get_workflow_run_results env self workflow_uuid run_num accept_format
               format_option σ in
  trace run.2 = (trace σ ++ [req])%list ∧
  req_headers req !! "Accept" = Some (enum_value env accept_format) ∧
  (∀ r, server env (trace σ) req = Responded r → raise_for_status r = false →
     ∃ msg, run.1 = Raised (ValueError msg) ∧
            msg = "Unsupported accept_format: " +:+ enum_str env accept_format ∧
            contains (enum_str env accept_format) msg) ∧
  (∀ e, dispatch_result env (root_url c +:+ results_path workflow_uuid run_num) false
          (server env (trace σ) req) = Raised e →
     run.1 = Raised e ∧ is_api_error e = true).
Proof.
  intros Hc HJ HC HE req run. unfold run.
  rewrite (get_workflow_run_results_run _ _ _ _ _ _ _ _ _ Hc). cbn [fst snd].
  fold req. split; [done|]. split; [apply lookup_insert_eq|]. split.
  - intros r Hr Hok. rewrite Hr, (dispatch_result_success _ _ _ Hok).
    destruct accept_format; try done.
    eexists. split; [reflexivity|]. split; [done|]. apply contains_suffix.
  - intros e He. rewrite He. split; [done|].
    by eapply dispatch_result_raised_api_error.
Qed.

Lemma unsupported_format_after_dispatch_witness :
  client_at fresh_state 2%positive the_client (base_headers "secret") ∧
  OtherFormat "XML" ≠ JSON ∧
  ∃ msg,
    (get_workflow_run_results (answering (Responded empty_ok)) 2%positive "wf-1" 7
       (OtherFormat "XML") None fresh_state).1 = Raised (ValueError msg) ∧
    msg = "Unsupported accept_format: RunResultResponseFormat.XML".
Proof.
  split; [exact fresh_state_client_at|]. split; [discriminate|].
  destruct (unsupported_format_after_dispatch (answering (Responded empty_ok))
              2%positive "wf-1" 7 (OtherFormat "XML") None fresh_state the_client
              (base_headers "secret") fresh_state_client_at
              ltac:(discriminate) ltac:(discriminate) ltac:(discriminate))
    as (_ & _ & Hok & _).
  destruct (Hok empty_ok eq_refl eq_refl) as (msg & Hrun & Hmsg & _).
  exists msg. split; [exact Hrun | exact Hmsg].
Defined.

(** C1 as stated fails: with an unsupported format one request has been sent
    by the time the [ValueError] is raised, and when the service answers with
    an error status no [ValueError] is raised at all. *)
Lemma unsupported_format_sends_request :
  trace fresh_state = [] ∧
  length (trace (get_workflow_run_results (answering (Responded empty_ok)) 2%positive
                   "wf-1" 7 (OtherFormat "XML") None fresh_state).2) = 1%nat ∧
  (get_workflow_run_results (answering (Responded empty_ok)) 2%positive
     "wf-1" 7 (OtherFormat "XML") None fresh_state).1
    = Raised (ValueError "Unsupported accept_format: RunResultResponseFormat.XML") ∧
  (get_workflow_run_results
     (answering (Responded (body_response 406 "Not Acceptable"
                              (JsonDecodeError "Expecting value"))))
     2%positive "wf-1" 7 (OtherFormat "XML") None fresh_state).1
    = Raised (ClientRequestError "Client error 406: Not Acceptable" 406
                (VStr "Not Acceptable")).
Proof. repeat split; vm_compute; reflexivity. Qed.

Lemma N_of_ascii_of_byte (b : Byte.byte) : N_of_ascii (ascii_of_byte b) = Byte.to_N b.
Proof. by destruct b. Qed.

Lemma latin1_decode_length bs : String.length (latin1_decode bs) = length bs.
Proof. induction bs as [|b bs IH]; [done|]. cbn. by rewrite IH. Qed.

Lemma utf8_encode_length s : (String.length s ≤ length (utf8_encode s))%nat.
Proof.
  induction s as [|ch s IH]; [done|]. cbn [utf8_encode String.length].
  destruct (N_of_ascii ch <? 128)%N; cbn [length]; lia.
Qed.

Lemma utf8_of_latin1 bs :
  utf8_encode (latin1_decode bs) = bs ↔ Forall (λ b, is_ascii_byte b = true) bs.
Proof.
  induction bs as [|b bs IH]; [done|].
  cbn [latin1_decode utf8_encode]. rewrite N_of_ascii_of_byte.
  fold (is_ascii_byte b). destruct (is_ascii_byte b) eqn:Hb.
  - rewrite byte_of_ascii_of_byte. split.
    + intros [= H]. constructor; [done|]. by apply IH.
    + intros H. inversion_clear H. f_equal. by apply IH.
  - split.
    + intros [= _ H]. exfalso.
      pose proof (utf8_encode_length (latin1_decode bs)) as Hlen.
      rewrite latin1_decode_length in Hlen.
      rewrite <- H in Hlen at 1. cbn [length] in Hlen. lia.
    + intros H. inversion_clear H. congruence.
Qed.

(** C6, as the code has it: when the dispatcher returns the response, a CSV
    retrieval returns the [text] of the response as it is, which is the body
    as the HTTP library decoded it.  That text is the body read as UTF-8 when
    the library decoded it as UTF-8; when it decoded the body as ISO-8859-1,
    the text is the body read as UTF-8 only if every byte of the body is
    ASCII.  A spreadsheet retrieval returns the [content] bytes as they
    are. *)
Theorem raw_results_verbatim env self workflow_uuid run_num format_option σ c base :
  client_at σ self c base →
  (∀ r,
     server env (trace σ)
       (results_request env σ c base workflow_uuid run_num CSV format_option)
       = Responded r →
     raise_for_status r = false →
     (get_workflow_run_results env self workflow_uuid run_num CSV format_option σ).1
     = Returned (ResultText (text r)) ∧
     (decoded_as UTF8 (content r) (text r) → utf8_encode (text r) = content r) ∧
     (decoded_as Latin1 (content r) (text r) →
        (utf8_encode (text r) = content r
         ↔ Forall (λ b, is_ascii_byte b = true) (content r)))) ∧
  (∀ r,
     server env (trace σ)
       (results_request env σ c base workflow_uuid run_num EXCEL format_option)
       = Responded r →
     raise_for_status r = false →
     (get_workflow_run_results env self workflow_uuid run_num EXCEL format_option σ).1
     = Returned (ResultBytes (content r))).
Proof.
  intros Hc. split; intros r Hr Hok;
    rewrite (get_workflow_run_results_run _ _ _ _ _ _ _ _ _ Hc); cbn [fst];
    rewrite Hr, (dispatch_result_success _ _ _ Hok); [|done].
  split; [done|]. split.
  - by intros ->.
  - intros ->. apply utf8_of_latin1.
Qed.

Lemma raw_results_verbatim_witness :
  client_at fresh_state 2%positive the_client (base_headers "secret") ∧
  decoded_as UTF8 (content csv_response) (text csv_response) ∧
  (get_workflow_run_results (answering (Responded csv_response)) 2%positive "wf-1" 7
     CSV (Some "flat") fresh_state).1 = Returned (ResultText "id,total") ∧
  utf8_encode "id,total" = content csv_response ∧
  (get_workflow_run_results (answering (Responded csv_response)) 2%positive "wf-1" 7
     EXCEL None fresh_state).1 = Returned (ResultBytes (content csv_response)).
Proof.
  split; [exact fresh_state_client_at|]. split; [reflexivity|].
  destruct (proj1 (raw_results_verbatim (answering (Responded csv_response)) 2%positive
                     "wf-1" 7 (Some "flat") fresh_state the_client (base_headers "secret")
                     fresh_state_client_at) csv_response eq_refl eq_refl)
    as (Htext & Hutf8 & _).
  split; [exact Htext|]. split; [exact (Hutf8 eq_refl)|].
  exact (proj2 (raw_results_verbatim (answering (Responded csv_response)) 2%positive
                  "wf-1" 7 None fresh_state the_client (base_headers "secret")
                  fresh_state_client_at) csv_response eq_refl eq_refl).
Defined.

(** C6 as stated fails: the CSV text is not the body byte for byte as UTF-8
    when the library decoded the body under another charset.  The two body
    bytes C3 A9, decoded as ISO-8859-1, come back as a text of two
    characters whose UTF-8 form has four bytes. *)
Lemma csv_text_not_utf8_of_body :
  decoded_as Latin1 (content latin1_csv) (text latin1_csv) ∧
  (get_workflow_run_results (answering (Responded latin1_csv)) 2%positive "wf-1" 7
     CSV None fresh_state).1 = Returned (ResultText (text latin1_csv)) ∧
  utf8_encode (text latin1_csv) = [Byte.xc3; Byte.x83; Byte.xc2; Byte.xa9] ∧
  utf8_encode (text latin1_csv) ≠ content latin1_csv.
Proof. repeat split; try (vm_compute; reflexivity). vm_compute. discriminate. Qed.

(** C7: over a response with a 2xx status a structured retrieval returns the
    object the class [RunResult] builds from the decoded body; a body that is
    not JSON gives a [ValueError]; and a decoded body from which no object can
    be built gives an exception that is a [ValueError] and is none of the
    client's HTTP failures. *)
Theorem structured_results env self workflow_uuid run_num format_option σ c base r :
  client_at σ self c base →
  server env (trace σ)
    (results_request env σ c base workflow_uuid run_num JSON format_option)
    = Responded r →
  200 ≤ status_code r ≤ 299 →
  let run := get_workflow_run_results env self workflow_uuid run_num JSON
               format_option σ in
  (∀ kw m, json r = JsonOk (VDict kw) → model_init env RunResult kw = Built m →
     run.1 = Returned (ResultModel m)) ∧
  (∀ msg, json r = JsonDecodeError msg →
     run.1 = Raised (ValueError "Failed to decode JSON response for RunResult.")) ∧
  (∀ v, json r = JsonOk v →
     (∀ kw m, v = VDict kw → model_init env RunResult kw ≠ Built m) →
     ∃ e, run.1 = Raised e ∧ is_value_error e = true ∧ is_api_error e = false).
Proof.
  intros Hc Hr Hcode run. unfold run.
  rewrite (get_workflow_run_results_run _ _ _ _ _ _ _ _ _ Hc). cbn [fst].
  rewrite Hr, (dispatch_result_success _ _ _ (raise_for_status_2xx _ Hcode)).
  unfold interpret_results. repeat split.
  - intros kw m Hj Hm. by rewrite Hj, Hm.
  - intros msg Hj. by rewrite Hj.
  - intros v Hj Hbad. rewrite Hj.
    destruct v as [| | | | |items|kw]; try (eexists; split; [reflexivity|done]).
    destruct (model_init env RunResult kw) as [m| |] eqn:Hm.
    + by destruct (Hbad kw m).
    + eexists; split; [reflexivity|done].
    + eexists; split; [reflexivity|done].
Qed.

Lemma structured_results_witness :
  client_at fresh_state 2%positive the_client (base_headers "secret") ∧
  200 ≤ status_code result_response ≤ 299 ∧
  (get_workflow_run_results (answering (Responded result_response)) 2%positive "wf-1" 7
     JSON None fresh_state).1
  = Returned (ResultModel {| model_class := RunResult;
                             model_fields := [("id", VInt 7); ("data", VDict [])] |}).
Proof.
  split; [exact fresh_state_client_at|]. split; [cbn; lia|].
  exact (proj1 (structured_results (answering (Responded result_response)) 2%positive
                  "wf-1" 7 None fresh_state the_client (base_headers "secret")
                  result_response fresh_state_client_at eq_refl ltac:(cbn; lia))
           _ _ eq_refl eq_refl).
Defined.

(** ** The client's state across calls *)

Section touches_only.
Context {A B : Type}.
Implicit Types X : loc → Prop.

Lemma touches_ret X (a : A) : touches_only X (mret a).
Proof. by intros σ l o Hl _. Qed.

Lemma touches_raise X e : touches_only X (raise e : M A).
Proof. by intros σ l o Hl _. Qed.

Lemma touches_bind X (m : M A) (f : A → M B) :
  touches_only X m → (∀ a, touches_only X (f a)) → touches_only X (m ≫= f).
Proof.
  intros Hm Hf σ l o Hl HX. specialize (Hm σ l o Hl HX).
  unfold mbind, M_bind. destruct (m σ) as [[a|e] σ']; cbn [snd] in *; [|done].
  by apply Hf.
Qed.

Lemma touches_try_except X (m : M A) h :
  touches_only X m → (∀ e k, h e = Some k → touches_only X k) →
  touches_only X (try_except m h).
Proof.
  intros Hm Hh σ l o Hl HX. specialize (Hm σ l o Hl HX).
  unfold try_except. destruct (m σ) as [[a|e] σ']; cbn [snd] in *; [done|].
  destruct (h e) as [k|] eqn:Hk; [|done]. by eapply Hh.
Qed.

Lemma touches_alloc_bind X o (f : loc → M B) :
  (∀ l', touches_only (λ l, X l ∨ l = l') (f l')) →
  touches_only X (alloc o ≫= f).
Proof.
  intros Hf σ l o' Hl HX. unfold mbind, M_bind, alloc.
  apply Hf; cbn [heap].
  - rewrite lookup_insert_ne; [done|]. by eapply fresh_loc_ne.
  - intros [?|Heq]; [done|]. by eapply fresh_loc_ne.
Qed.
End touches_only.

Lemma touches_load_dict X l : touches_only X (load_dict l).
Proof.
  intros σ l' o Hl _. unfold load_dict.
  by destruct (heap σ !! l) as [[]|].
Qed.

Lemma touches_load_client X l : touches_only X (load_client l).
Proof.
  intros σ l' o Hl _. unfold load_client.
  by destruct (heap σ !! l) as [[]|].
Qed.

Lemma touches_store (X : loc → Prop) l o : X l → touches_only X (store l o).
Proof.
  intros HX σ l' o' Hl HX'. unfold store. cbn [snd heap].
  rewrite lookup_insert_ne; [done|]. by intros ->.
Qed.

Lemma touches_requests_request X env req : touches_only X (requests_request env req).
Proof. by intros σ l o Hl _. Qed.

Lemma touches_dict_copy_bind {B} X l (f : loc → M B) :
  (∀ l', touches_only (λ l, X l ∨ l = l') (f l')) →
  touches_only X (dict_copy l ≫= f).
Proof.
  intros Hf σ l0 o Hl HX. unfold dict_copy.
  unfold mbind at 1, M_bind at 1, mbind at 1, M_bind at 1, load_dict.
  destruct (heap σ !! l) as [[d|]|]; cbn [snd]; try done.
  by apply (touches_alloc_bind X (DictObj d) f Hf σ l0 o).
Qed.

Lemma touches_dict_update (X : loc → Prop) l other :
  X l → touches_only X (dict_update l other).
Proof.
  intros HX. unfold dict_update.
  apply touches_bind; [apply touches_load_dict|]. intros d.
  apply touches_bind; [apply touches_load_dict|]. intros o.
  by apply touches_store.
Qed.

Lemma touches_dict_setitem (X : loc → Prop) l k v :
  X l → touches_only X (dict_setitem l k v).
Proof.
  intros HX. unfold dict_setitem.
  apply touches_bind; [apply touches_load_dict|]. intros d.
  by apply touches_store.
Qed.

Ltac touches_step :=
  first
    [ apply touches_ret | apply touches_raise | apply touches_load_dict
    | apply touches_load_client | apply touches_requests_request
    | apply touches_bind; [|intros ?] ].

Lemma touches__request X env self method path parse_json kwargs :
  touches_only X (_request env self method path parse_json kwargs).
Proof.
  unfold _request.
  apply touches_bind; [apply touches_load_client|]. intros c.
  apply touches_dict_copy_bind. intros request_headers.
  apply touches_bind.
  { destruct (kw_headers kwargs) as [h|]; [|apply touches_ret].
    apply touches_dict_update. by right. }
  intros _. repeat touches_step.
  destruct a0 as [response| |]; try apply touches_raise.
  destruct (raise_for_status response); [apply touches_raise|].
  destruct parse_json; [|apply touches_ret].
  destruct (status_code response =? 204); [apply touches_ret|].
  destruct (json response); [apply touches_ret | apply touches_raise].
Qed.

Lemma touches__request_decoded X env self method path kwargs :
  @touches_only value X (_request env self method path true kwargs).
Proof. exact (touches__request X env self method path true kwargs). Qed.

Lemma touches__request_raw X env self method path kwargs :
  @touches_only Response X (_request env self method path false kwargs).
Proof. exact (touches__request X env self method path false kwargs). Qed.

Lemma touches_construct X env cls v : touches_only X (construct env cls v).
Proof.
  unfold construct. destruct v; try apply touches_raise.
  destruct (model_init env cls items); [apply touches_ret | apply touches_raise ..].
Qed.

Lemma touches_iterate X v : touches_only X (iterate v).
Proof. destruct v; first [apply touches_raise | apply touches_ret]. Qed.

Lemma touches_mapM_construct X env cls items :
  touches_only X (mapM (construct env cls) items).
Proof.
  induction items as [|v items IH]; [apply touches_ret|]. cbn [mapM].
  apply touches_bind; [apply touches_construct|]. intros m.
  apply touches_bind; [exact IH|]. intros ms. apply touches_ret.
Qed.

Lemma touches_get_workflow_run_results X env self workflow_uuid run_num accept_format
    format_option :
  touches_only X (get_workflow_run_results env self workflow_uuid run_num accept_format
                    format_option).
Proof.
  unfold get_workflow_run_results.
  apply touches_bind; [apply touches_load_client|]. intros c.
  apply touches_dict_copy_bind. intros custom_headers.
  apply touches_bind; [apply touches_dict_setitem; by right|]. intros _.
  apply touches_bind; [apply touches__request_raw|]. intros response.
  repeat case_decide; try first [apply touches_ret | apply touches_raise].
  destruct (json response) as [json_data|]; [|apply touches_raise].
  apply touches_try_except.
  - apply touches_bind; [apply touches_construct|]. intros m. apply touches_ret.
  - intros e k Hk. destruct e; try done. injection Hk as <-. apply touches_raise.
Qed.

Ltac touches_method :=
  repeat first
    [ apply touches__request_decoded | apply touches__request_raw
    | apply touches_construct | apply touches_iterate
    | apply touches_mapM_construct | apply touches_get_workflow_run_results
    | touches_step ].

Lemma touches_upload_file X env self file_path file_content filename :
  touches_only X (upload_file env self file_path file_content filename).
Proof.
  unfold upload_file.
  destruct file_content as [data|], filename as [name|]; touches_method.
  all: destruct (read_file env file_path); touches_method.
Qed.

Lemma touches_perform X env self call : touches_only X (perform env self call).
Proof.
  destruct call; cbn [perform];
    unfold list_files, get_file, delete_file, list_workflows, create_workflow,
      get_workflow, override_workflow, update_workflow, delete_workflow,
      list_workflow_runs, create_workflow_run, get_workflow_run_details;
    try (apply touches_bind; [apply touches_upload_file|intros ?]);
    touches_method.
Qed.

(** C10: whatever a public operation does and however it ends, every object
    that existed before the call is unchanged after it; the client object
    keeps its [root_url], its [api_key] and its reference to the header
    dictionary, and that dictionary holds what it held, so a later call reads
    the same base headers. *)
Theorem operations_preserve_client env self call σ c base :
  client_at σ self c base →
  client_at (perform env self call σ).2 self c base ∧
  (∀ l o, heap σ !! l = Some o → heap (perform env self call σ).2 !! l = Some o).
Proof.
  intros [Hself Hbase].
  assert (Hkeep : ∀ l o, heap σ !! l = Some o →
                         heap (perform env self call σ).2 !! l = Some o).
  { intros l o Hl. apply (touches_perform nothing env self call σ l o Hl).
    by intros []. }
  split; [|exact Hkeep]. split; by apply Hkeep.
Qed.

Lemma operations_preserve_client_witness :
  client_at fresh_state 2%positive the_client (base_headers "secret") ∧
  client_at
    (perform (answering (Responded csv_response)) 2%positive
       (GetWorkflowRunResults "wf-1" 7 CSV None) fresh_state).2
    2%positive the_client (base_headers "secret").
Proof.
  split; [exact fresh_state_client_at|].
  exact (proj1 (operations_preserve_client (answering (Responded csv_response))
                  2%positive (GetWorkflowRunResults "wf-1" 7 CSV None) fresh_state
                  the_client (base_headers "secret") fresh_state_client_at)).
Defined.


(** * Further properties of the client *)

(** ** Paths *)

Lemma append_cons (ch : ascii) (a b : string) :
  String ch a +:+ b = String ch (a +:+ b).
Proof. reflexivity. Qed.

Lemma append_slash_nonempty (t : string) : t +:+ "/" ≠ EmptyString.
Proof. by destruct t. Qed.

(** X1: [rstrip('/')] cuts a run of slashes off the end of the root URL and
    nothing else, and what is left does not end with a slash. *)
Theorem rstrip_slash_spec (s : string) :
  (∃ n, s = rstrip_slash s +:+ slashes n) ∧
  (∀ t, rstrip_slash s ≠ t +:+ "/").
Proof.
  induction s as [|ch rest [[n Hn] Hend]].
  - split; [by exists O|]. intros t H. by destruct t.
  - cbn [rstrip_slash]. destruct (rstrip_slash rest) as [|a r'] eqn:Hr.
    + destruct (Ascii.eqb_spec ch "/"%char) as [->|Hch].
      * split; [exists (S n); by rewrite Hn|]. intros t H. by destruct t.
      * split; [exists n; by rewrite Hn|].
        intros [|c' t'] H; rewrite ?append_cons in H.
        -- by injection H as ->.
        -- injection H as _ H. by destruct t'.
    + split; [exists n; by rewrite append_cons, <- Hn|].
      intros [|c' t'] H; rewrite ?append_cons in H.
      * discriminate.
      * injection H as _ H. by apply (Hend t').
Qed.

Lemma has_slash_cons ch s :
  has_slash (String ch s) = Ascii.eqb "/"%char ch || has_slash s.
Proof. reflexivity. Qed.

(** X2: [split('/')[-1]] is the part of the path after its last slash: it has
    no slash in it, and what precedes it is empty or ends with a slash. *)
Theorem last_segment_spec (s : string) :
  has_slash (last_segment s) = false ∧
  ∃ before, s = before +:+ last_segment s ∧
            (before = EmptyString ∨ ∃ p, before = p +:+ "/").
Proof.
  induction s as [|ch rest (Hno & before & Hs & Hbefore)].
  - split; [done|]. exists EmptyString. by split; [|left].
  - cbn [last_segment]. fold (has_slash rest).
    destruct (has_slash rest) eqn:Hrest.
    + split; [done|]. exists (String ch before). split.
      * by rewrite append_cons, <- Hs.
      * right. destruct Hbefore as [->|[p ->]].
        -- change (rest = last_segment rest) in Hs. congruence.
        -- by exists (String ch p).
    + destruct (Ascii.eqb_spec ch "/"%char) as [->|Hch].
      * split; [done|]. exists "/". split; [done|]. right. by exists EmptyString.
      * split.
        -- rewrite has_slash_cons, Hrest.
           destruct (Ascii.eqb_spec "/"%char ch); [congruence|done].
        -- exists EmptyString. by split; [|left].
Qed.

(** ** The dispatcher *)

Lemma overrides_at_none σ kwargs : kw_headers kwargs = None → overrides_at σ kwargs ∅.
Proof. intros H. unfold overrides_at. by rewrite H. Qed.

(** X3: whatever the outcome, a dispatcher call makes one round trip: the
    trace grows by one request, to the root URL followed by the path, with
    the method, the query parameters, the JSON body and the files it was
    given. *)
Theorem _request_one_round_trip env self method path parse_json kwargs σ c base ov :
  client_at σ self c base →
  overrides_at σ kwargs ov →
  ∃ req,
    trace (_request env self method path parse_json kwargs σ).2
      = (trace σ ++ [req])%list ∧
    req_method req = method ∧
    req_url req = root_url c +:+ path ∧
    req_params req = kw_params kwargs ∧
    req_json req = kw_json kwargs ∧
    req_files req = kw_files kwargs.
Proof.
  intros Hc Hov. rewrite (_request_run _ _ _ _ _ _ _ _ _ _ Hc Hov).
  eexists. split; [reflexivity|]. done.
Qed.

Lemma _request_one_round_trip_witness :
  client_at fresh_state 2%positive the_client (base_headers "secret") ∧
  ∃ req,
    trace (_request (answering (RequestExceptionRaised "timed out")) 2%positive "PUT"
             "/v1/workflows/w1" true (json_kwargs (VDict [("name", VStr "n")]))
             fresh_state).2 = [req] ∧
    req_url req = "https://api.documentextractor.ai/v1/workflows/w1" ∧
    req_json req = Some (VDict [("name", VStr "n")]).
Proof.
  split; [exact fresh_state_client_at|].
  destruct (_request_one_round_trip (answering (RequestExceptionRaised "timed out"))
              2%positive "PUT" "/v1/workflows/w1" true
              (json_kwargs (VDict [("name", VStr "n")])) fresh_state the_client
              (base_headers "secret") ∅ fresh_state_client_at eq_refl)
    as (req & Htrace & _ & Hurl & _ & Hjson & _).
  exists req. split; [exact Htrace|]. split; [exact Hurl | exact Hjson].
Defined.

(** X4: every exception that leaves the dispatcher is one of the client's own
    API errors: no exception of the HTTP library gets through. *)
Theorem _request_raises_api_errors env self method path parse_json kwargs σ c base ov e :
  client_at σ self c base →
  overrides_at σ kwargs ov →
  (_request env self method path parse_json kwargs σ).1 = Raised e →
  is_api_error e = true.
Proof.
  intros Hc Hov. rewrite (_request_run _ _ _ _ _ _ _ _ _ _ Hc Hov). cbn [fst].
  apply dispatch_result_raised_api_error.
Qed.

Lemma _request_raises_api_errors_witness :
  client_at fresh_state 2%positive the_client (base_headers "secret") ∧
  is_api_error (DocumentExtractorAPIError
                  "Request failed for https://api.documentextractor.ai/v1/files/: timed out"
                  None VNone) = true.
Proof.
  split; [exact fresh_state_client_at|].
  exact (_request_raises_api_errors (answering (RequestExceptionRaised "timed out"))
           2%positive "GET" "/v1/files/" true no_kwargs fresh_state the_client
           (base_headers "secret") ∅ _ fresh_state_client_at eq_refl eq_refl).
Defined.

(** ** Sequencing *)

Lemma silent_ret {A} (a : A) : silent (mret a).
Proof. by intros σ. Qed.

Lemma silent_raise {A} e : silent (raise e : M A).
Proof. by intros σ. Qed.

Lemma silent_bind {A B} (m : M A) (f : A → M B) :
  silent m → (∀ a, silent (f a)) → silent (m ≫= f).
Proof.
  intros Hm Hf σ. unfold mbind, M_bind. specialize (Hm σ).
  destruct (m σ) as [[a|e] σ']; cbn [snd] in *; subst; [apply Hf | done].
Qed.

Lemma silent_construct env cls v : silent (construct env cls v).
Proof.
  unfold construct. destruct v; try apply silent_raise.
  destruct (model_init env cls items); [apply silent_ret | apply silent_raise ..].
Qed.

Lemma silent_iterate v : silent (iterate v).
Proof. destruct v; first [apply silent_raise | apply silent_ret]. Qed.

Lemma silent_mapM_construct env cls items : silent (mapM (construct env cls) items).
Proof.
  induction items as [|v items IH]; [apply silent_ret|]. cbn [mapM].
  apply silent_bind; [apply silent_construct|]. intros m.
  apply silent_bind; [exact IH|]. intros ms. apply silent_ret.
Qed.

Lemma bind_silent_state {A B} (m : M A) (f : A → M B) σ :
  (∀ a, silent (f a)) → ((m ≫= f) σ).2 = (m σ).2.
Proof.
  intros Hf. unfold mbind, M_bind.
  destruct (m σ) as [[a|e] σ']; [apply Hf | done].
Qed.

Lemma bind_raised {A B} (m : M A) (f : A → M B) σ e :
  (m σ).1 = Raised e → ((m ≫= f) σ).1 = Raised e.
Proof.
  unfold mbind, M_bind. destruct (m σ) as [[a|e'] σ']; cbn [fst]; [done|].
  by intros [= ->].
Qed.

Lemma bind_returned {A B} (m : M A) (f : A → M B) σ a :
  (m σ).1 = Returned a → (m ≫= f) σ = f a (m σ).2.
Proof.
  unfold mbind, M_bind. destruct (m σ) as [[a'|e] σ']; cbn [fst snd]; [|done].
  by intros [= ->].
Qed.

Lemma failure_of_dispatch env url parse_json o e :
  failure_of env url o = Some e → dispatch_result env url parse_json o = Raised e.
Proof.
  unfold failure_of, dispatch_result. destruct o as [r| |].
  - destruct (raise_for_status r); [|done]. by intros [= <-].
  - by intros [= <-].
  - by intros [= <-].
Qed.

Lemma _request_run_plain env self method path parse_json kwargs σ c base :
  client_at σ self c base →
  kw_headers kwargs = None →
  _request env self method path parse_json kwargs σ
  = (dispatch_result env (root_url c +:+ path) parse_json
       (server env (trace σ) (request_of c method path kwargs base)),
     after_request σ base (request_of c method path kwargs base)).
Proof.
  intros Hc Hk.
  rewrite (_request_run _ _ _ _ _ _ _ _ _ _ Hc (overrides_at_none _ _ Hk)).
  by rewrite (left_id_L ∅ (∪)).
Qed.

Ltac silent_tac :=
  intros;
  repeat first
    [ apply silent_ret | apply silent_raise | apply silent_construct
    | apply silent_iterate | apply silent_mapM_construct
    | apply silent_bind; [|intros ?] ].

Ltac unfold_endpoints :=
  cbn [perform];
  unfold list_files, get_file, delete_file, list_workflows, create_workflow,
    get_workflow, override_workflow, update_workflow, delete_workflow,
    list_workflow_runs, create_workflow_run, get_workflow_run_details.

Ltac peel_binds :=
  repeat match goal with
         | |- ((?m ≫= ?f) ?σ).1 = Raised _ => apply (bind_raised m f σ)
         end.

(** ** The public operations *)

(** X5: a public operation makes at most one request.  An upload that fails
    its filename check or cannot open its file leaves the state untouched;
    every other call sends exactly one request, with the method and to the
    path of its endpoint, whether the service answers or not. *)
Theorem perform_one_request env self call σ c base :
  client_at σ self c base →
  if stops_locally env call then (perform env self call σ).2 = σ
  else ∃ req,
    trace (perform env self call σ).2 = (trace σ ++ [req])%list ∧
    req_method req = (endpoint call).1 ∧
    req_url req = root_url c +:+ (endpoint call).2.
Proof.
  intros Hc.
  destruct call; cbn [stops_locally endpoint fst snd];
    try (unfold_endpoints;
         rewrite !bind_silent_state by silent_tac;
         rewrite (_request_run_plain _ _ _ _ _ _ _ _ _ Hc) by done;
         eexists; split; [reflexivity|done]).
  - cbn [perform]. unfold upload_file.
    destruct file_content as [data|], filename as [name|]; [| done | |].
    all: try destruct (read_file env file_path) as [data|msg]; try done.
    all: rewrite !bind_silent_state by silent_tac;
      rewrite (_request_run_plain _ _ _ _ _ _ _ _ _ Hc) by done;
      eexists; split; [reflexivity|done].
  - cbn [perform]. rewrite bind_silent_state by silent_tac.
    rewrite (get_workflow_run_results_run _ _ _ _ _ _ _ _ _ Hc).
    eexists. split; [reflexivity|done].
Qed.

Lemma perform_one_request_witness :
  client_at fresh_state 2%positive the_client (base_headers "secret") ∧
  ∃ req,
    trace (perform (answering (Responded empty_ok)) 2%positive
             (UpdateWorkflow "w1" {| model_class := WorkflowUpdate; model_fields := [] |})
             fresh_state).2 = [req] ∧
    req_method req = "PATCH" ∧
    req_url req = "https://api.documentextractor.ai/v1/workflows/w1".
Proof.
  split; [exact fresh_state_client_at|].
  exact (perform_one_request (answering (Responded empty_ok)) 2%positive
           (UpdateWorkflow "w1" {| model_class := WorkflowUpdate; model_fields := [] |})
           fresh_state the_client (base_headers "secret") fresh_state_client_at).
Defined.

(** X6: no public operation catches or rewraps a failure of the dispatcher.
    When the service fails the request, with an error status or without any
    response, the operation raises exactly the exception the dispatcher
    built for its endpoint's URL. *)
Theorem perform_propagates_failure env self call σ c base o e :
  client_at σ self c base →
  stops_locally env call = false →
  (∀ req, server env (trace σ) req = o) →
  failure_of env (root_url c +:+ (endpoint call).2) o = Some e →
  (perform env self call σ).1 = Raised e.
Proof.
  intros Hc Hlocal Ho He.
  destruct call; cbn [stops_locally endpoint fst snd] in *;
    try (unfold_endpoints; peel_binds;
         rewrite (_request_run_plain _ _ _ _ _ _ _ _ _ Hc) by done;
         cbn [fst]; rewrite Ho; by apply failure_of_dispatch).
  - cbn [perform]. unfold upload_file.
    destruct file_content as [data|], filename as [name|]; [| done | |].
    all: try destruct (read_file env file_path) as [data|msg]; try done.
    all: peel_binds;
      rewrite (_request_run_plain _ _ _ _ _ _ _ _ _ Hc) by done;
      cbn [fst]; rewrite Ho; by apply failure_of_dispatch.
  - cbn [perform]. peel_binds.
    rewrite (get_workflow_run_results_run _ _ _ _ _ _ _ _ _ Hc). cbn [fst].
    rewrite Ho. by rewrite (failure_of_dispatch _ _ false _ _ He).
Qed.

Lemma perform_propagates_failure_witness :
  client_at fresh_state 2%positive the_client (base_headers "secret") ∧
  (perform (answering (Responded (body_response 503 "busy" (JsonDecodeError "Expecting value"))))
     2%positive (GetWorkflowRunResults "w1" 3 JSON None) fresh_state).1
  = Raised (APIServerError "Server error 503" 503 (VStr "busy")).
Proof.
  split; [exact fresh_state_client_at|].
  exact (perform_propagates_failure
           (answering (Responded (body_response 503 "busy" (JsonDecodeError "Expecting value"))))
           2%positive (GetWorkflowRunResults "w1" 3 JSON None) fresh_state the_client
           (base_headers "secret") _ _ fresh_state_client_at eq_refl
           (λ _, eq_refl) eq_refl).
Defined.

Lemma request_then {B} env self method path parse_json kwargs
    (f : Dispatched parse_json → M B) σ c base v :
  client_at σ self c base →
  kw_headers kwargs = None →
  dispatch_result env (root_url c +:+ path) parse_json
    (server env (trace σ) (request_of c method path kwargs base)) = Returned v →
  (_request env self method path parse_json kwargs ≫= f) σ
  = f v (after_request σ base (request_of c method path kwargs base)).
Proof.
  intros Hc Hk Hv. rewrite (bind_returned _ _ _ v).
  - by rewrite (_request_run_plain _ _ _ _ _ _ _ _ _ Hc Hk).
  - by rewrite (_request_run_plain _ _ _ _ _ _ _ _ _ Hc Hk).
Qed.

Lemma request_then_decoded {B} env self method path kwargs (f : value → M B) σ c base v :
  client_at σ self c base →
  kw_headers kwargs = None →
  dispatch_result env (root_url c +:+ path) true
    (server env (trace σ) (request_of c method path kwargs base)) = Returned v →
  (@mbind M _ value B f (_request env self method path true kwargs)) σ
  = f v (after_request σ base (request_of c method path kwargs base)).
Proof. exact (request_then env self method path true kwargs f σ c base v). Qed.

Lemma request_then_raw {B} env self method path kwargs (f : Response → M B) σ c base r :
  client_at σ self c base →
  kw_headers kwargs = None →
  dispatch_result env (root_url c +:+ path) false
    (server env (trace σ) (request_of c method path kwargs base)) = Returned r →
  (@mbind M _ Response B f (_request env self method path false kwargs)) σ
  = f r (after_request σ base (request_of c method path kwargs base)).
Proof. exact (request_then env self method path false kwargs f σ c base r). Qed.

Lemma bind_assoc_run {A B C} (m : M A) (f : A → M B) (g : B → M C) σ :
  ((m ≫= f) ≫= g) σ = (m ≫= λ a, f a ≫= g) σ.
Proof. unfold mbind, M_bind. by destruct (m σ) as [[a|e] σ']. Qed.

Lemma dispatch_result_no_content env url r :
  status_code r = 204 → dispatch_result env url true (Responded r) = Returned VNone.
Proof.
  intros H. unfold dispatch_result, raise_for_status. by rewrite H.
Qed.

Lemma dispatch_result_decoded env url r v :
  raise_for_status r = false → status_code r ≠ 204 → json r = JsonOk v →
  dispatch_result env url true (Responded r) = Returned v.
Proof.
  intros Hok Hne Hv. unfold dispatch_result. rewrite Hok, Hv.
  by destruct (Z.eqb_spec (status_code r) 204).
Qed.

Lemma construct_built env cls item m σ :
  built env cls item m → construct env cls item σ = (Returned m, σ).
Proof. intros (kw & -> & Hm). unfold construct. by rewrite Hm. Qed.

Lemma mapM_construct_built env cls items ms σ :
  Forall2 (built env cls) items ms →
  mapM (construct env cls) items σ = (Returned ms, σ).
Proof.
  induction 1 as [|item m items ms Hm _ IH]; [done|]. cbn [mapM].
  unfold mbind, M_bind. fold (@mbind M _). rewrite (construct_built _ _ _ _ _ Hm).
  unfold mbind, M_bind in IH |- *. by rewrite IH.
Qed.

(** X7: a deletion returns [None] for every response that is not an error
    status, whatever its status code and whatever its body. *)
Theorem delete_returns_none env self uuid σ c base r :
  client_at σ self c base →
  (∀ req, server env (trace σ) req = Responded r) →
  raise_for_status r = false →
  (delete_file env self uuid σ).1 = Returned () ∧
  (delete_workflow env self uuid σ).1 = Returned ().
Proof.
  intros Hc Ho Hok. unfold delete_file, delete_workflow.
  split; erewrite request_then_raw; try done; by rewrite Ho, dispatch_result_success.
Qed.

Lemma delete_returns_none_witness :
  client_at fresh_state 2%positive the_client (base_headers "secret") ∧
  (delete_file (answering (Responded result_response)) 2%positive "f1" fresh_state).1
  = Returned ().
Proof.
  split; [exact fresh_state_client_at|].
  exact (proj1 (delete_returns_none (answering (Responded result_response)) 2%positive
                  "f1" fresh_state the_client (base_headers "secret") result_response
                  fresh_state_client_at (λ _, eq_refl) eq_refl)).
Defined.

Ltac after_request_tac Hc Ho lem :=
  rewrite ?bind_assoc_run;
  erewrite request_then_decoded; [| exact Hc | done | rewrite Ho; apply lem; done].

(** X8: a 204 answer to an operation that decodes a body does not come back
    as [None] and is not an API error: the dispatcher returns [None], and
    building the object, or iterating over the list, raises a [TypeError]. *)
Theorem no_content_is_type_error env self call σ c base r cls many :
  client_at σ self c base →
  stops_locally env call = false →
  body_kind call = Some (cls, many) →
  (∀ req, server env (trace σ) req = Responded r) →
  status_code r = 204 →
  (perform env self call σ).1
  = Raised (TypeError (if many then "'NoneType' object is not iterable"
                       else unpack_error env cls VNone)).
Proof.
  intros Hc Hlocal Hkind Ho H204.
  destruct call; cbn [stops_locally body_kind] in *; try discriminate;
    injection Hkind as <- <-;
    try (unfold_endpoints; after_request_tac Hc Ho dispatch_result_no_content;
         reflexivity).
  cbn [perform]. unfold upload_file.
  destruct file_content as [data|], filename as [name|]; [| done | |].
  all: try destruct (read_file env file_path) as [data|msg]; try done.
  all: after_request_tac Hc Ho dispatch_result_no_content; reflexivity.
Qed.

Lemma no_content_is_type_error_witness :
  client_at fresh_state 2%positive the_client (base_headers "secret") ∧
  status_code no_content = 204 ∧
  (perform (answering (Responded no_content)) 2%positive ListWorkflows fresh_state).1
  = Raised (TypeError "'NoneType' object is not iterable").
Proof.
  split; [exact fresh_state_client_at|]. split; [reflexivity|].
  exact (no_content_is_type_error (answering (Responded no_content)) 2%positive
           ListWorkflows fresh_state the_client (base_headers "secret") no_content
           WorkflowResponse true fresh_state_client_at eq_refl eq_refl
           (λ _, eq_refl) eq_refl).
Defined.

(** X9: when the service answers with a status that is no error and not 204
    and the body decodes, an operation for a single resource returns the
    object its class builds from the body, and a listing returns the objects
    built from the items of the list, as many and in the same order. *)
Theorem perform_builds_models env self call σ c base r cls many v :
  client_at σ self c base →
  stops_locally env call = false →
  body_kind call = Some (cls, many) →
  (∀ req, server env (trace σ) req = Responded r) →
  raise_for_status r = false → status_code r ≠ 204 → json r = JsonOk v →
  (∀ m, many = false → built env cls v m →
     (perform env self call σ).1 = Returned (AModel m)) ∧
  (∀ items ms, many = true → v = VList items → Forall2 (built env cls) items ms →
     (perform env self call σ).1 = Returned (AModels ms) ∧ length ms = length items).
Proof.
  intros Hc Hlocal Hkind Ho Hok H204 Hv.
  assert (Hd : ∀ url, dispatch_result env url true (Responded r) = Returned v)
    by (intros; by apply dispatch_result_decoded).
  split.
  - intros m -> Hm.
    destruct call; cbn [stops_locally body_kind] in *; try discriminate;
      injection Hkind as <-;
      try (unfold_endpoints; after_request_tac Hc Ho Hd;
           unfold mbind, M_bind; by rewrite (construct_built _ _ _ _ _ Hm)).
    cbn [perform]. unfold upload_file.
    destruct file_content as [data|], filename as [name|]; [| done | |].
    all: try destruct (read_file env file_path) as [data|msg]; try done.
    all: after_request_tac Hc Ho Hd;
      unfold mbind, M_bind; by rewrite (construct_built _ _ _ _ _ Hm).
  - intros items ms -> -> Hms.
    split; [|symmetry; by eapply Forall2_length].
    destruct call; cbn [stops_locally body_kind] in *; try discriminate;
      injection Hkind as <-;
      unfold_endpoints; after_request_tac Hc Ho Hd;
      unfold mbind, M_bind, iterate, mret, M_ret;
      by rewrite (mapM_construct_built _ _ _ _ _ Hms).
Qed.

Lemma perform_builds_models_witness :
  client_at fresh_state 2%positive the_client (base_headers "secret") ∧
  (perform (answering (Responded two_files)) 2%positive ListFiles fresh_state).1
  = Returned (AModels [ {| model_class := FileResponse; model_fields := [("id", VStr "f1")] |};
                        {| model_class := FileResponse; model_fields := [("id", VStr "f2")] |} ]).
Proof.
  split; [exact fresh_state_client_at|].
  refine (proj1 (proj2 (perform_builds_models (answering (Responded two_files)) 2%positive
             ListFiles fresh_state the_client (base_headers "secret") two_files
             FileResponse true _ fresh_state_client_at eq_refl eq_refl (λ _, eq_refl)
             eq_refl ltac:(discriminate) eq_refl) _ _ eq_refl eq_refl _)).
  repeat constructor; eexists; split; reflexivity.
Defined.

(** ** Upload and run results: what is sent *)

(** X10: an upload that gets as far as the network sends one multipart
    request with the single field [file].  A filename that is given and not
    empty names the part, otherwise the last segment of the path does.
    In-memory content is sent as it is and its MIME type is guessed from that
    name; without content the bytes are those of the file at the path and
    the type is guessed from the path.  A failed guess gives
    [application/octet-stream]. *)
Theorem upload_file_request env self file_path file_content filename σ c base :
  client_at σ self c base →
  stops_locally env (UploadFile file_path file_content filename) = false →
  ∃ req part,
    trace (upload_file env self file_path file_content filename σ).2
      = (trace σ ++ [req])%list ∧
    req_files req = Some [("file", part)] ∧ req_json req = None ∧
    (∀ f, filename = Some f → f ≠ EmptyString → part_filename part = f) ∧
    (filename = None ∨ filename = Some EmptyString →
       part_filename part = last_segment file_path) ∧
    (∀ data, file_content = Some data →
       part_content part = data ∧
       part_mime part = default "application/octet-stream"
                          (guess_type env (part_filename part))) ∧
    (file_content = None →
       read_file env file_path = inl (part_content part) ∧
       part_mime part = default "application/octet-stream" (guess_type env file_path)).
Proof.
  intros Hc Hlocal. unfold upload_file. cbn [stops_locally] in Hlocal.
  assert (Hname : ∀ f, f ≠ EmptyString → str_truthy f = true) by (by intros []).
  destruct file_content as [data|], filename as [name|]; try done.
  all: try (destruct (read_file env file_path) as [data|msg] eqn:Hread; [|done]).
  all: rewrite bind_silent_state by silent_tac;
    rewrite (_request_run_plain _ _ _ _ _ _ _ _ _ Hc) by done;
    eexists _, _; split; [reflexivity|];
    cbn [request_of files_kwargs req_files req_json kw_files kw_json
           part_filename part_content part_mime];
    split; [reflexivity|]; split; [reflexivity|].
  all: split; [intros f Hf Hne; try discriminate; injection Hf as ->;
               by rewrite (Hname _ Hne)|].
  all: split; [intros [Hf|Hf]; try discriminate; try injection Hf as ->; done|].
  all: split; [intros d Hd; try discriminate; by injection Hd as -> | intros Hd; try discriminate; done].
Qed.

Lemma upload_file_request_witness :
  client_at fresh_state 2%positive the_client (base_headers "secret") ∧
  ∃ req part,
    trace (upload_file (answering (Responded empty_ok)) 2%positive "docs/a.txt"
             (Some [Byte.x68; Byte.x69]) (Some "") fresh_state).2 = [req] ∧
    req_files req = Some [("file", part)] ∧
    part_filename part = "a.txt" ∧ part_mime part = "text/plain".
Proof.
  split; [exact fresh_state_client_at|].
  destruct (upload_file_request (answering (Responded empty_ok)) 2%positive "docs/a.txt"
              (Some [Byte.x68; Byte.x69]) (Some "") fresh_state the_client
              (base_headers "secret") fresh_state_client_at eq_refl)
    as (req & part & Htrace & Hfiles & _ & _ & Hname & Hdata & _).
  exists req, part. split; [exact Htrace|]. split; [exact Hfiles|].
  pose proof (Hname (or_intror eq_refl)) as Hn.
  split; [exact Hn|].
  destruct (Hdata _ eq_refl) as [_ Hmime]. rewrite Hmime, Hn. reflexivity.
Defined.

(** X11: a results retrieval sends a GET for the run's results path whose
    [Accept] header is the value of the requested format and whose other
    headers are the client's base headers; a format option that is given and
    not empty travels as the query parameter [format_option], otherwise the
    parameters are empty. *)
Theorem results_request_shape env self workflow_uuid run_num accept_format
    format_option σ c base :
  client_at σ self c base →
  ∃ req,
    trace (get_workflow_run_results env self workflow_uuid run_num accept_format
             format_option σ).2 = (trace σ ++ [req])%list ∧
    req_method req = "GET" ∧
    req_url req = root_url c +:+ results_path workflow_uuid run_num ∧
    req_headers req !! "Accept" = Some (enum_value env accept_format) ∧
    (∀ k, k ≠ "Accept" → req_headers req !! k = base !! k) ∧
    (∀ o, format_option = Some o → o ≠ EmptyString →
       req_params req = Some [("format_option", o)]) ∧
    (format_option = None ∨ format_option = Some EmptyString →
       req_params req = Some []).
Proof.
  intros Hc. rewrite (get_workflow_run_results_run _ _ _ _ _ _ _ _ _ Hc).
  eexists. split; [reflexivity|]. cbn.
  split; [done|]. split; [done|]. split; [apply lookup_insert_eq|].
  split; [intros k Hk; by rewrite lookup_insert_ne|].
  split.
  - intros o -> Ho. by destruct o.
  - by intros [-> | ->].
Qed.

Lemma results_request_shape_witness :
  client_at fresh_state 2%positive the_client (base_headers "secret") ∧
  ∃ req,
    trace (get_workflow_run_results (answering (Responded csv_response)) 2%positive
             "w1" 3 CSV (Some "flat") fresh_state).2 = [req] ∧
    req_headers req !! "Accept" = Some "text/csv" ∧
    req_headers req !! "Authorization" = Some "Bearer secret" ∧
    req_params req = Some [("format_option", "flat")].
Proof.
  split; [exact fresh_state_client_at|].
  destruct (results_request_shape (answering (Responded csv_response)) 2%positive
              "w1" 3 CSV (Some "flat") fresh_state the_client (base_headers "secret")
              fresh_state_client_at)
    as (req & Htrace & _ & _ & Haccept & Hother & Hopt & _).
  exists req. split; [exact Htrace|]. split; [exact Haccept|]. split.
  - rewrite Hother by done. reflexivity.
  - by apply Hopt.
Defined.

(** ** Across calls and across clients *)

(** X12: header overrides stay with their call.  After any public operation,
    a results retrieval with its own [Accept] included, the next request made
    without overrides carries exactly the client's base headers. *)
Theorem next_request_uses_base_headers env self call method path parse_json σ c base :
  client_at σ self c base →
  ∃ req,
    trace (_request env self method path parse_json no_kwargs
             (perform env self call σ).2).2
      = (trace (perform env self call σ).2 ++ [req])%list ∧
    req_headers req = base.
Proof.
  intros [Hself Hbase].
  assert (Hc' : client_at (perform env self call σ).2 self c base).
  { split; (eapply (touches_perform nothing); [eassumption | by intros []]). }
  rewrite (_request_run_plain _ _ _ _ _ _ _ _ _ Hc') by done.
  eexists. split; reflexivity.
Qed.

Lemma next_request_uses_base_headers_witness :
  client_at fresh_state 2%positive the_client (base_headers "secret") ∧
  ∃ req,
    trace (_request (answering (Responded csv_response)) 2%positive "GET" "/v1/files/"
             true no_kwargs
             (perform (answering (Responded csv_response)) 2%positive
                (GetWorkflowRunResults "w1" 3 CSV None) fresh_state).2).2
      = (trace (perform (answering (Responded csv_response)) 2%positive
                  (GetWorkflowRunResults "w1" 3 CSV None) fresh_state).2 ++ [req])%list ∧
    req_headers req !! "Accept" = Some "application/json".
Proof.
  split; [exact fresh_state_client_at|].
  destruct (next_request_uses_base_headers (answering (Responded csv_response))
              2%positive (GetWorkflowRunResults "w1" 3 CSV None) "GET" "/v1/files/" true
              fresh_state the_client (base_headers "secret") fresh_state_client_at)
    as (req & Htrace & Hheaders).
  exists req. split; [exact Htrace|]. rewrite Hheaders. reflexivity.
Defined.

Lemma __init___new_objects root key σ :
  ∃ self c,
    (__init__ root key σ).1 = Returned self ∧
    api_key c = key ∧
    client_at (__init__ root key σ).2 self c (base_headers key) ∧
    heap σ !! self = None ∧ heap σ !! headers c = None ∧
    (∀ l o, heap σ !! l = Some o → heap (__init__ root key σ).2 !! l = Some o) ∧
    trace (__init__ root key σ).2 = trace σ.
Proof.
  rewrite __init___run. cbn [fst snd heap trace].
  set (h := fresh (dom (heap σ))).
  set (heap1 := <[h := DictObj (base_headers key)]> (heap σ)).
  set (self := fresh (dom heap1)).
  assert (Hh : heap σ !! h = None) by apply not_elem_of_dom, is_fresh.
  assert (Hs : heap1 !! self = None) by apply not_elem_of_dom, is_fresh.
  assert (Hsh : self ≠ h).
  { intros Heq. rewrite Heq in Hs. unfold heap1 in Hs.
    by rewrite lookup_insert_eq in Hs. }
  exists self, {| root_url := rstrip_slash root; api_key := key; headers := h |}.
  split; [done|]. split; [done|]. split.
  { split; cbn [heap headers].
    - apply lookup_insert_eq.
    - rewrite lookup_insert_ne by done. apply lookup_insert_eq. }
  split; [|split; [done|split; [|done]]].
  - unfold heap1 in Hs. by rewrite lookup_insert_ne in Hs.
  - intros l o Hl.
    assert (l ≠ h) by (intros ->; congruence).
    assert (heap1 !! l = Some o) by (unfold heap1; by rewrite lookup_insert_ne).
    rewrite lookup_insert_ne; [done|]. intros Heq. congruence.
Qed.

(** X13: clients do not share state.  Constructing a client sends nothing
    and leaves every existing object as it is; two clients constructed one
    after the other are different objects, neither of which existed before,
    with different header dictionaries, and each dictionary holds the bearer
    token of its own key. *)
Theorem clients_do_not_share root1 key1 root2 key2 σ :
  ∃ self1 c1 self2 c2,
    (__init__ root1 key1 σ).1 = Returned self1 ∧
    (__init__ root2 key2 (__init__ root1 key1 σ).2).1 = Returned self2 ∧
    self1 ≠ self2 ∧ headers c1 ≠ headers c2 ∧
    heap σ !! self1 = None ∧ heap σ !! headers c1 = None ∧
    heap σ !! self2 = None ∧ heap σ !! headers c2 = None ∧
    client_at (__init__ root2 key2 (__init__ root1 key1 σ).2).2 self1 c1
      (base_headers key1) ∧
    client_at (__init__ root2 key2 (__init__ root1 key1 σ).2).2 self2 c2
      (base_headers key2) ∧
    (∀ l o, heap σ !! l = Some o →
       heap (__init__ root1 key1 σ).2 !! l = Some o ∧
       heap (__init__ root2 key2 (__init__ root1 key1 σ).2).2 !! l = Some o) ∧
    trace (__init__ root1 key1 σ).2 = trace σ ∧
    trace (__init__ root2 key2 (__init__ root1 key1 σ).2).2 = trace σ.
Proof.
  destruct (__init___new_objects root1 key1 σ)
    as (self1 & c1 & Hr1 & _ & [Hs1 Hh1] & Hn1 & Hnh1 & Hkeep1 & Ht1).
  destruct (__init___new_objects root2 key2 (__init__ root1 key1 σ).2)
    as (self2 & c2 & Hr2 & _ & Hc2 & Hn2 & Hnh2 & Hkeep2 & Ht2).
  assert (Hold : ∀ l, heap (__init__ root1 key1 σ).2 !! l = None → heap σ !! l = None).
  { intros l Hl. destruct (heap σ !! l) as [o|] eqn:Ho; [|done].
    apply Hkeep1 in Ho. congruence. }
  exists self1, c1, self2, c2.
  split; [done|]. split; [done|].
  split; [intros ->; congruence|]. split; [intros Heq; congruence|].
  split; [done|]. split; [done|].
  split; [by apply Hold|]. split; [by apply Hold|].
  split; [split; by apply Hkeep2|]. split; [done|].
  split; [|split; [done|congruence]].
  intros l o Hl. split; [by apply Hkeep1 | by apply Hkeep2, Hkeep1].
Qed.

Lemma clients_do_not_share_witness :
  heap fresh_state !! 2%positive = Some (ClientObj the_client) ∧
  heap (__init__ "https://other.example/" "k2"
          (__init__ "https://one.example" "k1" fresh_state).2).2 !! 2%positive
  = Some (ClientObj the_client).
Proof.
  split; [exact (proj1 fresh_state_client_at)|].
  destruct (clients_do_not_share "https://one.example" "k1" "https://other.example/" "k2"
              fresh_state)
    as (s1 & c1 & s2 & c2 & _ & _ & _ & _ & _ & _ & _ & _ & _ & _ & Hkeep & _).
  exact (proj2 (Hkeep _ _ (proj1 fresh_state_client_at))).
Defined.

Lemma mapM_construct_stops env cls good ms bad rest e σ :
  Forall2 (built env cls) good ms →
  (construct env cls bad σ).1 = Raised e →
  (mapM (construct env cls) (good ++ bad :: rest) σ).1 = Raised e.
Proof.
  intros Hgood Hbad. induction Hgood as [|item m good ms Hm _ IH].
  - cbn [app mapM]. by apply bind_raised.
  - cbn [app mapM]. rewrite (bind_returned _ _ _ m) by by rewrite (construct_built _ _ _ _ _ Hm).
    rewrite (construct_built _ _ _ _ _ Hm). cbn [snd]. by apply bind_raised.
Qed.

(** X14: a listing gives all of its objects or none.  When an item of the
    decoded list cannot be built into its class, the listing raises that
    item's exception, however many items before it were fine. *)
Theorem listing_stops_at_bad_item env self call σ c base r cls good ms bad rest e :
  client_at σ self c base →
  body_kind call = Some (cls, true) →
  (∀ req, server env (trace σ) req = Responded r) →
  raise_for_status r = false → status_code r ≠ 204 →
  json r = JsonOk (VList (good ++ bad :: rest)) →
  Forall2 (built env cls) good ms →
  (∀ σ', (construct env cls bad σ').1 = Raised e) →
  (perform env self call σ).1 = Raised e.
Proof.
  intros Hc Hkind Ho Hok H204 Hv Hgood Hbad.
  assert (Hd : ∀ url, dispatch_result env url true (Responded r)
                      = Returned (VList (good ++ bad :: rest)))
    by (intros; by apply dispatch_result_decoded).
  destruct call; cbn [body_kind] in *; try discriminate; injection Hkind as <-;
    unfold_endpoints; after_request_tac Hc Ho Hd;
    apply bind_raised; unfold iterate;
    rewrite (bind_returned _ _ _ (good ++ bad :: rest)%list) by done;
    by apply mapM_construct_stops with ms.
Qed.

Lemma listing_stops_at_bad_item_witness :
  client_at fresh_state 2%positive the_client (base_headers "secret") ∧
  (perform (answering (Responded mixed_files)) 2%positive ListFiles fresh_state).1
  = Raised (ValidationError "id: Field required").
Proof.
  split; [exact fresh_state_client_at|].
  refine (listing_stops_at_bad_item (answering (Responded mixed_files)) 2%positive
            ListFiles fresh_state the_client (base_headers "secret") mixed_files
            FileResponse [VDict [("id", VStr "f1")]] _ (VDict [("name", VStr "x")])
            [VInt 3] _ fresh_state_client_at eq_refl (λ _, eq_refl) eq_refl
            ltac:(discriminate) eq_refl _ (λ _, eq_refl)).
  repeat constructor. eexists. split; reflexivity.
Defined.
